(** * Personal-assistant agent graph

    A shallow embedding of the routing graph, the worker agents and their
    tools, followed by the properties of the design that are verified on it.

    Conventions of the embedding.
    - JavaScript strings are sequences of 8-bit code units and the text
      handled is taken to be ASCII: [trim], [toLowerCase] and the character
      classes [\s] and [\w] are given on ASCII (above code unit 127 they
      depend on Unicode tables that are not reproduced here).
    - The language model, the clock, the JSON codec and the tool runtime are
      collaborators of the program; they are operations of a type class and
      every definition is parametric in them.
    - Module-level mutable variables and the collaborators' hidden state are
      threaded explicitly through a state-and-exception monad. *)

From Stdlib Require Import ZArith String Ascii List Uint63 Floats Permutation Sorted Lia.
From stdpp Require Import base list strings gmap pretty.

Local Open Scope Z_scope.

(** ** JavaScript primitives used by the sources *)

Module JS.

(** [String.prototype.trim], ASCII white space (TAB, LF, VT, FF, CR, SP). *)
Fixpoint trimStart (s : string) : string :=
  match s with
  | String c s' => if Ascii.is_space c then trimStart s' else s
  | EmptyString => EmptyString
  end.

Definition trim (s : string) : string :=
  String.rev (trimStart (String.rev (trimStart s))).

Definition is_upper (c : ascii) : bool :=
  let n := nat_of_ascii c in (65 <=? n)%nat && (n <=? 90)%nat.

Definition is_lower (c : ascii) : bool :=
  let n := nat_of_ascii c in (97 <=? n)%nat && (n <=? 122)%nat.

Definition is_digit (c : ascii) : bool :=
  let n := nat_of_ascii c in (48 <=? n)%nat && (n <=? 57)%nat.

(** The regular-expression class [\w]. *)
Definition is_word (c : ascii) : bool :=
  is_upper c || is_lower c || is_digit c || (nat_of_ascii c =? 95)%nat.

Definition lower (c : ascii) : ascii :=
  if is_upper c then ascii_of_nat (nat_of_ascii c + 32) else c.

Fixpoint toLowerCase (s : string) : string :=
  match s with
  | String c s' => String (lower c) (toLowerCase s')
  | EmptyString => EmptyString
  end.

(** [s.replace(/[^\w\s]/g, '')]. *)
Fixpoint strip_punctuation (s : string) : string :=
  match s with
  | String c s' =>
      if is_word c || Ascii.is_space c
      then String c (strip_punctuation s')
      else strip_punctuation s'
  | EmptyString => EmptyString
  end.

(** [s.split(/\s+/)]: a maximal run of white space is one separator; a run
    at either end leaves an empty string there, and the empty string splits
    into one empty string. [cur] is the current piece, reversed; [in_run]
    says that the previous character was white space. *)
Fixpoint split_ws_go (cur : string) (in_run : bool) (s : string) : list string :=
  match s with
  | EmptyString => [String.rev cur]
  | String c s' =>
      if Ascii.is_space c
      then if in_run then split_ws_go cur true s'
           else String.rev cur :: split_ws_go EmptyString true s'
      else split_ws_go (String c cur) false s'
  end.

Definition split_ws (s : string) : list string := split_ws_go EmptyString false s.

(** [s.split(c)] for a one-character separator. *)
Fixpoint split_char_go (sep : ascii) (cur : string) (s : string) : list string :=
  match s with
  | EmptyString => [String.rev cur]
  | String c s' =>
      if Ascii.eqb c sep
      then String.rev cur :: split_char_go sep EmptyString s'
      else split_char_go sep (String c cur) s'
  end.

Definition split_char (sep : ascii) (s : string) : list string :=
  split_char_go sep EmptyString s.

(** [s.includes(t)]. *)
Fixpoint includes (s t : string) : bool :=
  String.prefix t s ||
  match s with
  | String _ s' => includes s' t
  | EmptyString => false
  end.

(** [parts.join(sep)]. *)
Fixpoint join (sep : string) (parts : list string) : string :=
  match parts with
  | [] => EmptyString
  | [p] => p
  | p :: ps => p +:+ sep +:+ join sep ps
  end.

(** [Array.prototype.slice(0, end)] for an integer [end]: a negative [end]
    counts from the end of the array. *)
Definition slice0 {A} (stop : Z) (l : list A) : list A :=
  if stop <? 0
  then take (Z.to_nat (Z.max (Z.of_nat (length l) + stop) 0)) l
  else take (Z.to_nat stop) l.

(** [Array.prototype.sort(cmp)]: a stable sort. [cmp x y > 0] puts [x]
    after [y]; a comparator result of [NaN] counts as [0]. Being stable, the
    result is the same for every consistent comparator whatever the
    algorithm; it is written here as an insertion sort. *)
Fixpoint insert_by {A} (cmp : A → A → Z) (x : A) (l : list A) : list A :=
  match l with
  | [] => [x]
  | y :: l' => if cmp x y <=? 0 then x :: l else y :: insert_by cmp x l'
  end.

Fixpoint sort_by {A} (cmp : A → A → Z) (l : list A) : list A :=
  match l with
  | [] => []
  | x :: l' => insert_by cmp x (sort_by cmp l')
  end.

(** [l.slice(-1)[0]]: the last element, if any. *)
Definition last_of {A} (l : list A) : option A := last l.

(** [Array.prototype.slice(start)] for an integer [start]: a negative
    [start] counts from the end of the array, and [-0] is [0]. *)
Definition slice_from {A} (start : Z) (l : list A) : list A :=
  if start <? 0
  then drop (Z.to_nat (Z.max (Z.of_nat (length l) + start) 0)) l
  else drop (Z.to_nat start) l.

End JS.

(** The double quote and the line feed, for the text of prompts and replies. *)
Definition dq : string := String (ascii_of_nat 34) EmptyString.
Definition nl : string := String (ascii_of_nat 10) EmptyString.


(** ** Common types (types.ts) *)

Inductive Role := user | assistant | system | agent.

Global Instance Role_eq_dec : EqDecision Role.
Proof. solve_decision. Defined.

Record Message := {
  role : Role;
  content : string;
  agentName : option string
}.

Record FeatureRequest := {
  title : string;
  description : string;
  userGoal : string;
  exampleUseCase : string;
  timestamp : Z            (* a valid [Date], as its time value in ms *)
}.

Record ResearchResult := {
  question : string;
  answer : string;
  sources : list string
}.

Record RedditPost := {
  post_title : string;
  post_url : string;
  post_upvotes : Z;
  post_commentCount : Z;
  post_summary : string
}.

Record RedditSummary := {
  topic : string;
  sentiment : string;
  mainTopics : list string;
  topPosts : list RedditPost
}.

Record AgentState := {
  currentAgent : string;
  taskCompleted : bool;
  featureRequests : list FeatureRequest;
  researchResults : option ResearchResult;
  redditSummary : option RedditSummary
}.

Record GraphState := {
  messages : list Message;
  agentState : AgentState
}.

(** [AgentResponse] has the fields of [GraphState]. *)
Abbreviation AgentResponse := GraphState.

(** Object spread with overrides, [{ ...agentState, field: value }]. *)
Definition with_taskCompleted (b : bool) (a : AgentState) : AgentState :=
  {| currentAgent := currentAgent a; taskCompleted := b;
     featureRequests := featureRequests a;
     researchResults := researchResults a; redditSummary := redditSummary a |}.

Definition with_currentAgent (name : string) (a : AgentState) : AgentState :=
  {| currentAgent := name; taskCompleted := taskCompleted a;
     featureRequests := featureRequests a;
     researchResults := researchResults a; redditSummary := redditSummary a |}.

Definition with_featureRequests (l : list FeatureRequest) (a : AgentState) : AgentState :=
  {| currentAgent := currentAgent a; taskCompleted := taskCompleted a;
     featureRequests := l;
     researchResults := researchResults a; redditSummary := redditSummary a |}.

Definition with_researchResults (r : ResearchResult) (a : AgentState) : AgentState :=
  {| currentAgent := currentAgent a; taskCompleted := taskCompleted a;
     featureRequests := featureRequests a;
     researchResults := Some r; redditSummary := redditSummary a |}.

Definition with_redditSummary (r : RedditSummary) (a : AgentState) : AgentState :=
  {| currentAgent := currentAgent a; taskCompleted := taskCompleted a;
     featureRequests := featureRequests a;
     researchResults := researchResults a; redditSummary := Some r |}.

(** The messages of a given role, [messages.filter(m => m.role === r)]. *)
Definition of_role (r : Role) (ms : list Message) : list Message :=
  filter (λ m, role m = r) ms.

Definition assistant_says (who text : string) : Message :=
  {| role := assistant; content := text; agentName := Some who |}.

(** ** Feature-request queue (tools/featureRequestQueue.ts)

    The module-level array [featureRequests] is the state; every operation
    takes it and returns it. *)

Module FeatureRequestQueue.

Definition Queue := list FeatureRequest.

Definition empty : Queue := [].

Definition addFeatureRequest (request : FeatureRequest) (q : Queue)
  : FeatureRequest * Queue :=
  (request, q ++ [request]).

Definition getAllFeatureRequests (q : Queue) : list FeatureRequest := q.

Definition by_timestamp_desc (a b : FeatureRequest) : Z :=
  timestamp b - timestamp a.

Definition getRecentFeatureRequests (count : option Z) (q : Queue)
  : list FeatureRequest :=
  JS.slice0 (default 5 count) (JS.sort_by by_timestamp_desc q).

Definition clearFeatureRequests (q : Queue) : Queue := [].

(** The queue after a sequence of appends. *)
Definition appended (items : list FeatureRequest) (q : Queue) : Queue :=
  foldl (λ q r, snd (addFeatureRequest r q)) q items.

End FeatureRequestQueue.

(** ** Research lookup (tools/researchTools.ts) *)

Module ResearchTools.

Definition knowledgeBase : gmap string (list string) :=
  list_to_map [
    ("blockchain", [
      "Blockchain is a distributed ledger technology that enables secure transactions without a central authority.";
      "The first blockchain was created as the underlying technology for Bitcoin by Satoshi Nakamoto in 2008.";
      "Smart contracts are self-executing contracts with the terms directly written into code on blockchain platforms like Ethereum."
    ]);
    ("machine learning", [
      "Machine learning is a subset of artificial intelligence that focuses on developing systems that learn from data.";
      "Supervised learning involves training models on labeled data, while unsupervised learning works with unlabeled data.";
      "Deep learning uses neural networks with many layers to process complex patterns in large amounts of data."
    ]);
    ("climate change", [
      "Climate change refers to long-term shifts in temperatures and weather patterns, primarily caused by human activities.";
      "The burning of fossil fuels is a major contributor to greenhouse gas emissions.";
      "Effects include rising sea levels, increased frequency of extreme weather events, and disruption of ecosystems."
    ])
  ].

Definition stopWords : gset string :=
  list_to_set ["the"; "a"; "an"; "and"; "in"; "on"; "at"; "of"; "to"; "for";
               "with"; "is"; "are"; "what"; "why"; "how"; "when"; "where"; "who"].

Definition importantPhrases : list string :=
  ["machine learning"; "artificial intelligence"; "blockchain";
   "climate change"; "quantum computing"].

(** The object [wordFrequency], as its own properties in insertion order.
    A value is [Some n] for the number [n] and [None] for a value that is
    not a number. Two words meet properties inherited from
    [Object.prototype] (the words are lower case, so these are the only
    two): reading ["constructor"] gives a function, to which [+ 1] appends
    text, and the property stays a string from then on; assigning a number
    to ["__proto__"] creates no property. *)
Definition Frequency := list (string * option nat).

Fixpoint bump_existing (word : string) (wf : Frequency) : option Frequency :=
  match wf with
  | [] => None
  | (w, v) :: wf' =>
      if decide (w = word) then Some ((w, S <$> v) :: wf')
      else (λ r, (w, v) :: r) <$> bump_existing word wf'
  end.

Definition bump (wf : Frequency) (word : string) : Frequency :=
  if decide (word = "__proto__") then wf
  else match bump_existing word wf with
       | Some wf' => wf'
       | None =>
           wf ++ [(word, if decide (word = "constructor") then None else Some 1%nat)]
       end.

(** [Object.entries]: properties whose name is an array index (a decimal
    numeral without leading zero, at most 2^32 - 2) come first, in
    increasing numeric order; the others follow in insertion order. *)
Fixpoint numeral_value (acc : N) (s : string) : option N :=
  match s with
  | EmptyString => Some acc
  | String c s' =>
      if JS.is_digit c
      then numeral_value (10 * acc + (N_of_ascii c - 48))%N s'
      else None
  end.

Definition array_index (s : string) : option N :=
  match s with
  | EmptyString => None
  | String "0" EmptyString => Some 0%N
  | String "0" _ => None
  | _ => match numeral_value 0 s with
         | Some n => if (n <=? 4294967294)%N then Some n else None
         | None => None
         end
  end.

Definition index_order (a b : string * option nat) : Z :=
  Z.of_N (default 0%N (array_index a.1)) - Z.of_N (default 0%N (array_index b.1)).

Definition Object_entries (wf : Frequency) : list (string * option nat) :=
  JS.sort_by index_order (filter (λ e, is_Some (array_index e.1)) wf)
  ++ filter (λ e, ¬ is_Some (array_index e.1)) wf.

(** The comparator [(a, b) => b[1] - a[1]]; [NaN] counts as [0]. A count
    that is not a number belongs to a word that names a property of
    [Object.prototype]; with such a word among several others the comparator
    is not a consistent one, and the language leaves the order of the sorted
    array to the engine. [JS.sort_by] then gives one of the admissible orders
    and need not be the engine's: of the sort, the properties of
    [extractKeywords] use only that it permutes its input, and that it is
    the stable descending sort when every count is a number. *)
Definition by_frequency_desc (a b : string * option nat) : Z :=
  match a.2, b.2 with
  | Some x, Some y => Z.of_nat y - Z.of_nat x
  | _, _ => 0
  end.

Definition extractKeywords (question : string) : list string :=
  let cleaned := JS.strip_punctuation (JS.toLowerCase question) in
  let words := JS.split_ws cleaned in
  let filteredWords :=
    filter (λ word, (word ∉ stopWords) ∧ (2 < String.length word)%nat) words in
  match filter (λ phrase, JS.includes cleaned phrase = true) importantPhrases with
  | phrase :: _ => [phrase]
  | [] =>
      let wordFrequency := foldl bump [] filteredWords in
      fst <$> JS.slice0 3 (JS.sort_by by_frequency_desc (Object_entries wordFrequency))
  end.

Definition internal (entry : string) : string :=
  "[Internal Knowledge Base] " +:+ entry.

(** The snippets pushed by the loop over the keywords. *)
Fixpoint knowledge_hits (keywords : list string) : list string :=
  match keywords with
  | [] => []
  | keyword :: rest =>
      match knowledgeBase !! JS.toLowerCase keyword with
      | Some knowledgeEntries => (internal <$> knowledgeEntries) ++ knowledge_hits rest
      | None => knowledge_hits rest
      end
  end.

Definition external_pair (keyword : string) : list string :=
  [ "[External API] Based on recent research, the topic of " +:+ keyword +:+
    " has seen significant developments in the past year.";
    "[External API] Experts in " +:+ keyword +:+
    " suggest that continued research is necessary to fully understand its implications." ].

Definition generic_pair : list string :=
  [ "[Research] The research question appears to be outside our current knowledge domain.";
    "[Research] Consider refining the question or exploring more specific aspects of the topic." ].

(** No statement of the [try] block throws on a string, so the [catch]
    block is never entered and the function is total. *)
Definition performResearch (question : string) : list string :=
  let keywords := extractKeywords question in
  (* Step 1 *)
  let results := knowledge_hits keywords in
  (* Step 2 *)
  let results :=
    match keywords, results with
    | keyword0 :: _, [] => results ++ external_pair keyword0
    | _, _ => results
    end in
  (* Step 3 *)
  let results :=
    match results with
    | [] => results ++ generic_pair
    | _ => results
    end in
  results.

End ResearchTools.


(** ** Collaborators and effects *)

(** A prompt message, [{ role, content }]. *)
Record ChatMessage := { chat_role : Role; chat_content : string }.

(** The request the social-summary worker reads from the model's JSON. An
    absent [subreddits] or [timeFrame] is [undefined] in the source. *)
Record Focus := {
  subreddits : option (list string);
  aspects : list string;
  timeFrame : option string
}.

(** The analysis the social-summary worker reads from the model's JSON;
    [topPostsSummaries] keeps, per entry, its [summary] when it is a
    non-empty string. *)
Record Analysis := {
  analysis_sentiment : string;
  analysis_mainTopics : list string;
  analysis_summary : string;
  topPostsSummaries : list (option string)
}.

(** A post as the social-feed tool returns it (tools/redditApi.ts). *)
Record ApiPost := {
  api_title : string;
  api_url : string;
  permalink : string;
  author : string;
  created_utc : float;
  upvotes : Z;
  commentCount : Z;
  selftext : string
}.

(** What the program does not define itself. [World] is the hidden state of
    the collaborators (the model's sampling, the clock). A call of the model
    gives [None] when the call fails, and a decoder gives [None] when the text
    found by the extraction pattern is rejected by [JSON.parse] or the value
    lacks what the code reads from it. *)
Class Externals := {
  World : Type;
  llm_invoke : list ChatMessage → World → option string * World;
  Date_now : World → Z * World;
  decodeFeatureRequest : string → option (string * string * string * string);
  decodeFocus : string → option Focus;
  decodeAnalysis : string → option Analysis;
  JSON_stringify : list ApiPost → string
}.

(** A computation over a store of type [S] that may throw. *)
Inductive Completion (A : Type) :=
| Normal (a : A)
| Throw.
Arguments Normal {A} a.
Arguments Throw {A}.

Definition Eff (S A : Type) : Type := S → Completion A * S.

Section Eff.
Context {S : Type}.

Definition ret {A} (a : A) : Eff S A := λ s, (Normal a, s).

Definition throw {A} : Eff S A := λ s, (Throw, s).

Definition bind {A B} (m : Eff S A) (k : A → Eff S B) : Eff S B :=
  λ s, match m s with
       | (Normal a, s') => k a s'
       | (Throw, s') => (Throw, s')
       end.

(** [try { body } catch { handler }]: what [body] did to the store before
    it threw stays done. *)
Definition try_catch {A} (body handler : Eff S A) : Eff S A :=
  λ s, match body s with
       | (Normal a, s') => (Normal a, s')
       | (Throw, s') => handler s'
       end.

Definition or_throw {A} (o : option A) : Eff S A :=
  match o with Some a => ret a | None => throw end.

(** Run [f] on every element in turn and collect the results. *)
Fixpoint for_each {A B} (f : A → Eff S B) (l : list A) : Eff S (list B) :=
  match l with
  | [] => ret []
  | x :: l' => bind (f x) (λ y, bind (for_each f l') (λ ys, ret (y :: ys)))
  end.

End Eff.

Global Instance Eff_ret {S} : MRet (Eff S) := @ret S.
Global Instance Eff_bind {S} : MBind (Eff S) := λ A B k m, bind m k.

Section Effects.
Context `{Externals}.

Record Store := {
  world : World;
  featureRequestQueue : FeatureRequestQueue.Queue
}.

Definition M : Type → Type := Eff Store.

Definition lift_world {A} (op : World → A * World) : M A :=
  λ s, let '(a, w) := op (world s) in
       (Normal a, {| world := w; featureRequestQueue := featureRequestQueue s |}).

(** [await llm.invoke(prompt)], giving [response.content]. *)
Definition llm (prompt : list ChatMessage) : M string :=
  bind (lift_world (llm_invoke prompt)) or_throw.

Definition now : M Z := lift_world Date_now.

(** [await addFeatureRequest(request)]. *)
Definition enqueue (request : FeatureRequest) : M FeatureRequest :=
  λ s, let '(r, q) := FeatureRequestQueue.addFeatureRequest request (featureRequestQueue s) in
       (Normal r, {| world := world s; featureRequestQueue := q |}).

End Effects.

Global Instance M_ret `{Externals} : MRet M := @ret Store.
Global Instance M_bind `{Externals} : MBind M := λ A B k m, bind m k.

(** ** Social-feed fetch (tools/redditApi.ts) *)

Module RedditApi.
Section WithExternals.
Context `{Externals}.

(** [Date.now() / 1000 - 3600 * hours], in binary64 as in the source, for
    a clock reading that is not negative. *)
Definition hours_ago (hours : float) : M float :=
  t ← now;
  mret (PrimFloat.of_uint63 (Uint63.of_Z t) / 1000 - 3600 * hours)%float.

Definition mockPosts : M (list ApiPost) :=
  t1 ← hours_ago 5;
  t2 ← hours_ago 12;
  t3 ← hours_ago 8;
  t4 ← hours_ago 18;
  t5 ← hours_ago 10;
  mret [
    {| api_title := "GME Q1 Earnings Beat Expectations, Stock Up 8% in After Hours";
       api_url := "https://reddit.com/r/wallstreetbets/mock1";
       permalink := "/r/wallstreetbets/comments/mock1";
       author := "DiamondHands42069";
       created_utc := t1;
       upvotes := 4281;
       commentCount := 732;
       selftext := "GameStop just reported Q1 earnings with revenue of $1.38B vs $1.25B expected. EPS was $0.15 vs $0.02 expected. Their e-commerce sales are up 42% YoY. Looks like the turnaround is real! ðŸš€ðŸš€ðŸš€" |};
    {| api_title := "DD: GME's NFT Marketplace Strategy and Future Revenue Projections";
       api_url := "https://reddit.com/r/Superstonk/mock2";
       permalink := "/r/Superstonk/comments/mock2";
       author := "RoaringKitty22";
       created_utc := t2;
       upvotes := 2876;
       commentCount := 412;
       selftext := "I've analyzed GME's NFT marketplace strategy and projected potential revenue streams. Based on current growth and market trends, they could capture 15-20% of the gaming NFT market within 2 years. Full analysis in post..." |};
    {| api_title := "Ryan Cohen Just Purchased Another 100,000 Shares of GME";
       api_url := "https://reddit.com/r/GME/mock3";
       permalink := "/r/GME/comments/mock3";
       author := "ApeAnalyst";
       created_utc := t3;
       upvotes := 3542;
       commentCount := 621;
       selftext := "Breaking news: RC just filed that he purchased another 100K shares at an average price of $142.86. This brings his total to 9.1M shares or approximately 12% of outstanding shares. Bullish!" |};
    {| api_title := "GameStop Announces New Partnership with Major Game Publisher";
       api_url := "https://reddit.com/r/Superstonk/mock4";
       permalink := "/r/Superstonk/comments/mock4";
       author := "GMEtoTheMoon";
       created_utc := t4;
       upvotes := 1932;
       commentCount := 304;
       selftext := "GameStop just announced an exclusive partnership with [Major Publisher] to offer special edition collectibles and early access to upcoming releases. This is huge for building their brand value in the gaming community." |};
    {| api_title := "Technical Analysis: GME Set for Potential Breakout This Week";
       api_url := "https://reddit.com/r/wallstreetbets/mock5";
       permalink := "/r/wallstreetbets/comments/mock5";
       author := "ChartGuru";
       created_utc := t5;
       upvotes := 876;
       commentCount := 203;
       selftext := "Looking at the charts, GME is forming a clear bull flag pattern with increasing volume. MACD crossing over and RSI at 62 suggests momentum is building. We could see a test of $180 resistance soon if volume continues." |}
  ].

(** [post.permalink.split('/')[2].toLowerCase()]. *)
Definition postSubreddit (post : ApiPost) : string :=
  JS.toLowerCase (default EmptyString (JS.split_char "/" (permalink post) !! 2%nat)).

Definition getMockRedditPosts (subreddits : list string) : M (list ApiPost) :=
  posts ← mockPosts;
  match subreddits with
  | first :: _ =>
      if decide (first ≠ EmptyString)
      then
        let subredditSet : gset string := list_to_set (JS.toLowerCase <$> subreddits) in
        mret (filter (λ post, postSubreddit post ∈ subredditSet) posts)
      else mret posts
  | [] => mret posts
  end.

Definition default_subreddits : list string :=
  ["wallstreetbets"; "stocks"; "GME"; "Superstonk"].

(** An argument that is [undefined] takes its default. The half-second
    pause before the answer has no counterpart here. *)
Definition fetchRedditPosts (subreddits : option (list string))
    (timeFrame : option string) : M (list ApiPost) :=
  let subreddits := default default_subreddits subreddits in
  let timeFrame := default "day" timeFrame in
  getMockRedditPosts subreddits.

End WithExternals.
End RedditApi.

(** ** The agents of the router graph (agents/*.ts) *)

Module Agents.
Section WithExternals.
Context `{Externals}.

Definition chat (r : Role) (text : string) : ChatMessage :=
  {| chat_role := r; chat_content := text |}.

(** [messages.filter(m => m.role === "user").slice(-1)[0]?.content || ""]. *)
Definition latestUserContent (state : GraphState) : string :=
  default EmptyString (content <$> JS.last_of (of_role user (messages state))).

(** *** agents/personalAssistant.ts *)

Definition router_instructions : string :=
  "You are a router agent that analyzes user requests and directs them to the appropriate specialized agent.
          - If the user is reporting a problem, suggesting a feature, or describing a pain point, route to " +:+ dq +:+ "FeatureRequestAgent" +:+ dq +:+ "
          - If the user is asking a complex research question that requires deep analysis, route to " +:+ dq +:+ "DeepResearchAgent" +:+ dq +:+ "
          - If the user is asking about GameStop (GME) Reddit activity or stock sentiment, route to " +:+ dq +:+ "GmeRedditSummaryAgent" +:+ dq +:+ "
          - For general questions or if no specialized agent is appropriate, respond as " +:+ dq +:+ "PersonalAssistant" +:+ dq +:+ "
          
          Respond with only the agent name.".

Definition getRoutingMessage (agentName userMessage : string) : string :=
  if decide (agentName = "FeatureRequestAgent") then
    "I understand you have a feature idea or suggestion. Let me help document that for you."
  else if decide (agentName = "DeepResearchAgent") then
    "That's an interesting question that requires some research. Let me dig into that for you."
  else if decide (agentName = "GmeRedditSummaryAgent") then
    "I'll gather the latest information about GME from Reddit for you."
  else
    "How can I assist you today?".

Definition personalAssistantAgent (state : GraphState) : M AgentResponse :=
  match JS.last_of (of_role user (messages state)) with
  | None =>
      mret {| messages := messages state ++ [
                assistant_says "PersonalAssistant"
                  "Hello! I'm your personal assistant. How can I help you today?" ];
              agentState :=
                with_taskCompleted false
                  (with_currentAgent "PersonalAssistant" (agentState state)) |}
  | Some latestMessage =>
      try_catch
        (response ← llm [ chat system router_instructions;
                          chat user (content latestMessage) ];
         let agentName := JS.trim response in
         mret {| messages := messages state ++ [
                   assistant_says "PersonalAssistant"
                     (getRoutingMessage agentName (content latestMessage)) ];
                 agentState :=
                   with_taskCompleted false
                     (with_currentAgent agentName (agentState state)) |})
        (mret {| messages := messages state ++ [
                   assistant_says "PersonalAssistant"
                     "I encountered an issue while processing your request. Please try again." ];
                 agentState :=
                   with_taskCompleted false
                     (with_currentAgent "PersonalAssistant" (agentState state)) |})
  end.

(** *** agents/featureRequest.ts *)

Definition feature_instructions : string :=
  "You are a feature request specialist. Your job is to extract details about a user's feature request, problem, or pain point.
          Format the information as a JSON object with the following structure:
          {
            " +:+ dq +:+ "title" +:+ dq +:+ ": " +:+ dq +:+ "Brief title for the feature request" +:+ dq +:+ ",
            " +:+ dq +:+ "description" +:+ dq +:+ ": " +:+ dq +:+ "Detailed description of the feature or problem" +:+ dq +:+ ",
            " +:+ dq +:+ "userGoal" +:+ dq +:+ ": " +:+ dq +:+ "What the user is trying to accomplish" +:+ dq +:+ ",
            " +:+ dq +:+ "exampleUseCase" +:+ dq +:+ ": " +:+ dq +:+ "A concrete example of how this feature would be used" +:+ dq +:+ "
          }
          
          If any information is missing or unclear, make a reasonable inference based on what the user has shared.".

Definition feature_reply (featureRequest : FeatureRequest) : string :=
  "Thanks for your input! I've documented your request with the following details:
              
              **Title**: " +:+ title featureRequest +:+ "
              **Description**: " +:+ description featureRequest +:+ "
              **User Goal**: " +:+ userGoal featureRequest +:+ "
              **Example Use Case**: " +:+ exampleUseCase featureRequest +:+ "
              
              Your request has been added to our feature request queue. Is there anything else you'd like to share about this feature?".

Definition feature_clarification : Message :=
  assistant_says "FeatureRequestAgent"
    "I had trouble processing your feature request. Could you provide more details about what you're looking for?".

Definition feature_failure : Message :=
  assistant_says "FeatureRequestAgent"
    "I encountered an issue while processing your feature request. Please try again.".

(** The statements of the inner [try] block. *)
Definition featureRequest_parsed (state : GraphState) (response : string)
  : M AgentResponse :=
  '(t, d, g, e) ← or_throw (decodeFeatureRequest response);
  created ← now;
  let featureRequest :=
    {| title := t; description := d; userGoal := g; exampleUseCase := e;
       timestamp := created |} in
  _ ← enqueue featureRequest;
  let updatedAgentState :=
    with_currentAgent "PersonalAssistant"
      (with_taskCompleted true
         (with_featureRequests
            (featureRequests (agentState state) ++ [featureRequest])
            (agentState state))) in
  mret {| messages := messages state ++ [
            assistant_says "FeatureRequestAgent" (feature_reply featureRequest) ];
          agentState := updatedAgentState |}.

Definition feature_prompt (state : GraphState) : list ChatMessage :=
  let userMessages := JS.join nl (content <$> of_role user (messages state)) in
  [ chat system feature_instructions; chat user userMessages ].

Definition featureRequestAgent (state : GraphState) : M AgentResponse :=
  try_catch
    (response ← llm (feature_prompt state);
     try_catch
       (featureRequest_parsed state response)
       (mret {| messages := messages state ++ [feature_clarification];
                agentState := with_taskCompleted false (agentState state) |}))
    (mret {| messages := messages state ++ [feature_failure];
             agentState := with_taskCompleted false (agentState state) |}).

(** *** agents/deepResearch.ts *)

Definition question_instructions : string :=
  "You are a research specialist. Based on the user's message, formulate a clear research question.
          Keep the question focused and specific. Return only the research question without any additional text.".

Definition synthesis_instructions (researchQuestion : string) : string :=
  "You are a research specialist. Synthesize the following sources to answer the question: " +:+ dq +:+ researchQuestion +:+ dq +:+ "
          Provide a comprehensive answer based only on the provided sources. Cite specific sources where appropriate.
          If the sources don't contain sufficient information to answer the question fully, acknowledge the limitations.".

Definition research_reply (researchQuestion synthesisResponse : string)
    (sources : list string) : string :=
  "Here's what I found regarding " +:+ dq +:+ researchQuestion +:+ dq +:+ ":

" +:+ synthesisResponse +:+ "

My research drew from " +:+ pretty (length sources) +:+ " sources. Would you like more details on any specific aspect?".

Definition research_failure : Message :=
  assistant_says "DeepResearchAgent"
    "I encountered an issue while researching your question. Would you mind rephrasing it or providing more context?".

(** The statements of the [try] block. *)
Definition deepResearch_attempt (state : GraphState) : M AgentResponse :=
  questionResponse ← llm [ chat system question_instructions;
                           chat user (latestUserContent state) ];
  let researchQuestion := JS.trim questionResponse in
  let sources := ResearchTools.performResearch researchQuestion in
  synthesisResponse ←
    llm [ chat system (synthesis_instructions researchQuestion);
          chat user
            ("Research Sources:" +:+ nl +:+
             JS.join (nl +:+ nl)
               (imap (λ i s, "Source " +:+ pretty (i + 1)%nat +:+ ": " +:+ s) sources)) ];
  let researchResult :=
    {| question := researchQuestion; answer := synthesisResponse;
       sources := sources |} in
  mret {| messages := messages state ++ [
            assistant_says "DeepResearchAgent"
              (research_reply researchQuestion synthesisResponse sources) ];
          agentState :=
            with_currentAgent "PersonalAssistant"
              (with_taskCompleted true
                 (with_researchResults researchResult (agentState state))) |}.

Definition deepResearchAgent (state : GraphState) : M AgentResponse :=
  try_catch
    (deepResearch_attempt state)
    (mret {| messages := messages state ++ [research_failure];
             agentState := with_taskCompleted false (agentState state) |}).

(** *** agents/gmeRedditSummary.ts *)

Definition focus_instructions : string :=
  "You are a Reddit analysis specialist. Based on the user's message, determine:
          1. Which subreddits to focus on (default to " +:+ dq +:+ "wallstreetbets" +:+ dq +:+ ", " +:+ dq +:+ "stocks" +:+ dq +:+ ", " +:+ dq +:+ "GME" +:+ dq +:+ ", " +:+ dq +:+ "Superstonk" +:+ dq +:+ " if not specified)
          2. What specific aspects the user is interested in (e.g., sentiment, DD analysis, memes, specific news)
          3. Time frame of interest (default to " +:+ dq +:+ "latest" +:+ dq +:+ " if not specified)
          
          Format your response as a JSON object:
          {
            " +:+ dq +:+ "subreddits" +:+ dq +:+ ": [" +:+ dq +:+ "sub1" +:+ dq +:+ ", " +:+ dq +:+ "sub2" +:+ dq +:+ "],
            " +:+ dq +:+ "aspects" +:+ dq +:+ ": [" +:+ dq +:+ "aspect1" +:+ dq +:+ ", " +:+ dq +:+ "aspect2" +:+ dq +:+ "],
            " +:+ dq +:+ "timeFrame" +:+ dq +:+ ": " +:+ dq +:+ "string description of time frame" +:+ dq +:+ "
          }".

Definition analysis_instructions (focus : Focus) : string :=
  "You are a Reddit content analyst specializing in stock market discussions, particularly GameStop (GME).
          Analyze the provided Reddit posts and create a summary that focuses on: " +:+ JS.join ", " (aspects focus) +:+ ".
          
          Format your response as a JSON object:
          {
            " +:+ dq +:+ "sentiment" +:+ dq +:+ ": " +:+ dq +:+ "positive" +:+ dq +:+ " | " +:+ dq +:+ "negative" +:+ dq +:+ " | " +:+ dq +:+ "neutral" +:+ dq +:+ " | " +:+ dq +:+ "mixed" +:+ dq +:+ ",
            " +:+ dq +:+ "mainTopics" +:+ dq +:+ ": [" +:+ dq +:+ "topic1" +:+ dq +:+ ", " +:+ dq +:+ "topic2" +:+ dq +:+ ", " +:+ dq +:+ "topic3" +:+ dq +:+ "],
            " +:+ dq +:+ "summary" +:+ dq +:+ ": " +:+ dq +:+ "Overall summary of the findings" +:+ dq +:+ ",
            " +:+ dq +:+ "topPostsSummaries" +:+ dq +:+ ": [
              {" +:+ dq +:+ "title" +:+ dq +:+ ": " +:+ dq +:+ "post title" +:+ dq +:+ ", " +:+ dq +:+ "summary" +:+ dq +:+ ": " +:+ dq +:+ "brief summary of post and key comments" +:+ dq +:+ "}
            ]
          }".

Definition top_post_line (post : RedditPost) : string :=
  "- [" +:+ post_title post +:+ "](" +:+ post_url post +:+ ") (" +:+
  pretty (post_upvotes post) +:+ " upvotes): " +:+ post_summary post.

Definition reddit_reply (analysis : Analysis) (topPosts : list RedditPost) : string :=
  "Here's the latest on GME from Reddit:
          
          **Overall Sentiment**: " +:+ analysis_sentiment analysis +:+ "
          
          **Main Topics of Discussion**:
          " +:+ JS.join nl ((λ topic, "- " +:+ topic) <$> analysis_mainTopics analysis) +:+ "
          
          **Summary**:
          " +:+ analysis_summary analysis +:+ "
          
          **Top Posts**:
          " +:+ JS.join (nl +:+ nl) (top_post_line <$> topPosts) +:+ "
          
          Would you like more details on any specific aspect?".

Definition reddit_failure : Message :=
  assistant_says "GmeRedditSummaryAgent"
    "I encountered an issue while fetching the latest GME information from Reddit. This could be due to API rate limits or connectivity issues. Would you like me to try again or focus on a specific aspect?".

(** The statements of the [try] block. *)
Definition gmeRedditSummary_attempt (state : GraphState) : M AgentResponse :=
  focusResponse ← llm [ chat system focus_instructions;
                        chat user (latestUserContent state) ];
  focus ← or_throw (decodeFocus focusResponse);
  redditPosts ← RedditApi.fetchRedditPosts (subreddits focus) (timeFrame focus);
  analysisResponse ←
    llm [ chat system (analysis_instructions focus);
          chat user ("Reddit Posts:" +:+ nl +:+ JSON_stringify redditPosts) ];
  analysis ← or_throw (decodeAnalysis analysisResponse);
  let topPosts :=
    imap (λ i post,
            {| post_title := api_title post;
               post_url := api_url post;
               post_upvotes := upvotes post;
               post_commentCount := commentCount post;
               post_summary :=
                 default "No summary available"
                   (mjoin (topPostsSummaries analysis !! i)) |})
         (JS.slice0 5 redditPosts) in
  let redditSummary :=
    {| topic := "GameStop (GME)";
       sentiment := analysis_sentiment analysis;
       mainTopics := analysis_mainTopics analysis;
       topPosts := topPosts |} in
  mret {| messages := messages state ++ [
            assistant_says "GmeRedditSummaryAgent" (reddit_reply analysis topPosts) ];
          agentState :=
            with_currentAgent "PersonalAssistant"
              (with_taskCompleted true
                 (with_redditSummary redditSummary (agentState state))) |}.

Definition gmeRedditSummaryAgent (state : GraphState) : M AgentResponse :=
  try_catch
    (gmeRedditSummary_attempt state)
    (mret {| messages := messages state ++ [reddit_failure];
             agentState := with_taskCompleted false (agentState state) |}).

End WithExternals.
End Agents.

(** ** Helpers (utils/helpers.ts) *)

Definition createInitialState : GraphState :=
  {| messages := [
       {| role := system;
          content := "You are a helpful personal assistant that can handle various tasks through specialized agents.";
          agentName := None |} ];
     agentState :=
       {| currentAgent := "PersonalAssistant";
          taskCompleted := false;
          featureRequests := [];
          researchResults := None;
          redditSummary := None |} |}.

Definition formatUserMessage (text : string) : Message :=
  {| role := user; content := text; agentName := None |}.

(** All messages for a given agent in the conversation history. *)
Definition getAgentMessages (state : GraphState) (name : string) : list Message :=
  filter (λ message, role message = assistant ∧ agentName message = Some name)
         (messages state).

(** The last [count] messages of the conversation, [count] being 5 when it
    is not given: [state.messages.slice(-count)]. *)
Definition getRecentMessages (state : GraphState) (count : option Z) : list Message :=
  JS.slice_from (- default 5 count) (messages state).

(** [[basePrompt, ...contextSources].join('\n\n')]. *)
Definition combinePromptContext (basePrompt : string) (contextSources : list string)
  : string :=
  JS.join (nl +:+ nl) (basePrompt :: contextSources).

(** ** The router graph (index.ts) *)

Module Graph.

Inductive Node :=
| PersonalAssistant
| FeatureRequestAgent
| DeepResearchAgent
| GmeRedditSummaryAgent.

Inductive Destination :=
| Goto (n : Node)
| END.

(** The name under which [addNode] registers a node. *)
Definition name (n : Node) : string :=
  match n with
  | PersonalAssistant => "PersonalAssistant"
  | FeatureRequestAgent => "FeatureRequestAgent"
  | DeepResearchAgent => "DeepResearchAgent"
  | GmeRedditSummaryAgent => "GmeRedditSummaryAgent"
  end.

(** Determine the next node based on the current agent in the state. *)
Definition router (state : GraphState) : string :=
  if taskCompleted (agentState state) then "PersonalAssistant"
  else currentAgent (agentState state).

(** The table given to [addConditionalEdges("PersonalAssistant", router, …)]. *)
Definition conditionalEdges : gmap string Destination :=
  list_to_map [
    ("PersonalAssistant", END);
    ("FeatureRequestAgent", Goto FeatureRequestAgent);
    ("DeepResearchAgent", Goto DeepResearchAgent);
    ("GmeRedditSummaryAgent", Goto GmeRedditSummaryAgent)
  ].

(** The channel reducers. *)
Definition messages_reducer (prev next : list Message) : list Message :=
  prev ++ drop (length prev) next.

Definition agentState_reducer (prev next : AgentState) : AgentState := next.

Definition merge (state : GraphState) (out : AgentResponse) : GraphState :=
  {| messages := messages_reducer (messages state) (messages out);
     agentState := agentState_reducer (agentState state) (agentState out) |}.

(** How a pass of the executor ends: at [END]; on a routing decision that
    the table does not have; on a node that throws; or stopped by the
    executor's step limit, with [next] still to run or, the limit being
    tested before the executor looks for what is left to run, on arrival at
    [END] with the last permitted node run. *)
Inductive Halt :=
| Finished
| UnknownDestination (name : string)
| NodeFailed (n : Node)
| RecursionLimit (next : Node)
| RecursionLimitAtEND.

Section WithExternals.
Context `{Externals}.

Definition node (n : Node) : GraphState → M AgentResponse :=
  match n with
  | PersonalAssistant => Agents.personalAssistantAgent
  | FeatureRequestAgent => Agents.featureRequestAgent
  | DeepResearchAgent => Agents.deepResearchAgent
  | GmeRedditSummaryAgent => Agents.gmeRedditSummaryAgent
  end.

(** The compiled graph: entry point [PersonalAssistant], the conditional
    edges out of it, and an edge from every worker back to it. One unit of
    [limit] is one node run; a pass finishes when it reaches [END] with a
    unit to spare, and is stopped by the limit otherwise. *)
Fixpoint run (limit : nat) (n : Node) (state : GraphState) (s : Store)
  : Halt * GraphState * Store :=
  match limit with
  | O => (RecursionLimit n, state, s)
  | S limit' =>
      match node n state s with
      | (Throw, s') => (NodeFailed n, state, s')
      | (Normal out, s') =>
          let state' := merge state out in
          match n with
          | PersonalAssistant =>
              match conditionalEdges !! router state' with
              | Some END =>
                  match limit' with
                  | O => (RecursionLimitAtEND, state', s')
                  | S _ => (Finished, state', s')
                  end
              | Some (Goto next) => run limit' next state' s'
              | None => (UnknownDestination (router state'), state', s')
              end
          | _ => run limit' PersonalAssistant state' s'
          end
      end
  end.

Definition invoke (limit : nat) (initialState : GraphState) (s : Store)
  : Halt * GraphState * Store :=
  run limit PersonalAssistant initialState s.

(** The deployment handler, given the content of the last message of the
    request: a fresh state, the user message pushed onto it, one pass of the
    graph, and the content of the last assistant message. *)
Definition handler (limit : nat) (userMessage : string) (s : Store)
  : option string * Store :=
  let initialState :=
    {| messages := messages createInitialState ++ [formatUserMessage userMessage];
       agentState := agentState createInitialState |} in
  match invoke limit initialState s with
  | (Finished, result, s') =>
      (content <$> JS.last_of (of_role assistant (messages result)), s')
  | (_, _, s') => (None, s')
  end.

End WithExternals.
End Graph.

(** ** The ReAct variant of the graph (the stand-alone agent script)

    The same design written against the graph library's message-passing
    interface: a supervisor node that validates the model's choice, and two
    workers that loop with a tool node for as long as the model asks for a
    tool. *)

Module ReAct.

Record ToolCall := {
  tool_name : string;
  tool_args : string;
  tool_call_id : string
}.

Inductive BaseMessage :=
| HumanMessage (text : string)
| AIMessage (text : string) (tool_calls : list ToolCall)
| ToolMessage (text : string) (call_id : string)
| SystemMessage (text : string).

Record FeatureRequestData := {
  id : string;
  title : string;
  description : string;
  goals : list string;
  use_cases : list string
}.

Record AgentState := {
  messages : list BaseMessage;
  userInput : string;
  nextAgent : string
}.

(** [Partial<AgentState>]: the channels a node writes. *)
Record Update := {
  new_messages : option (list BaseMessage);
  new_userInput : option string;
  new_nextAgent : option string
}.

Definition only_messages (ms : list BaseMessage) : Update :=
  {| new_messages := Some ms; new_userInput := None; new_nextAgent := None |}.

Definition only_nextAgent (name : string) : Update :=
  {| new_messages := None; new_userInput := None; new_nextAgent := Some name |}.

(** [stateChannels]: messages are concatenated, the other two channels
    take the latest value. *)
Definition apply_update (state : AgentState) (u : Update) : AgentState :=
  {| messages := from_option (λ y, messages state ++ y) (messages state) (new_messages u);
     userInput := default (userInput state) (new_userInput u);
     nextAgent := default (nextAgent state) (new_nextAgent u) |}.

(** The chains, the tools and the UUID source of the script. A chain gives
    [None] when its call fails; a tool always gives a text, the tool node
    turning a failure of the tool into the text of the error. *)
Class Runtime := {
  World : Type;
  supervisorChain : list BaseMessage → World → option string * World;
  featureRequestChain :
    list BaseMessage → World
    → option (string * string * list string * list string) * World;
  randomUUID : World → string * World;
  researchAgentRunnable :
    list BaseMessage → World → option (string * list ToolCall) * World;
  redditAgentRunnable :
    list BaseMessage → World → option (string * list ToolCall) * World;
  researchTools : ToolCall → World → string * World;
  redditTools : ToolCall → World → string * World
}.

Inductive Node :=
| supervisor
| feature_request_agent
| research_agent
| research_tool_node
| gme_reddit_agent
| reddit_tool_node.

Inductive Destination :=
| Goto (n : Node)
| END.

Inductive Halt :=
| Finished
| UnknownDestination (name : string)
| NodeFailed (n : Node)
| RecursionLimit (next : Node)
| RecursionLimitAtEND.

Definition validNodes : list string :=
  ["feature_request_agent"; "research_agent"; "gme_reddit_agent"; "FINISH"].

(** The validation step of [supervisorNode]. *)
Definition validated (nextNodeName : string) : string :=
  if bool_decide (nextNodeName ∈ validNodes) then nextNodeName else "FINISH".

(** The table of the conditional edges out of the supervisor. *)
Definition supervisorEdges : gmap string Destination :=
  list_to_map [
    ("feature_request_agent", Goto feature_request_agent);
    ("research_agent", Goto research_agent);
    ("gme_reddit_agent", Goto gme_reddit_agent);
    ("FINISH", END)
  ].

(** [toolsCondition], imported from the graph library: it checks the last
    message for tool calls and answers ["tools"] when there is one, and the
    library's [END], which is the string ["__end__"], otherwise. The edge is
    evaluated after a worker has appended its message, so there is a last
    message. *)
Definition toolsCondition (state : AgentState) : string :=
  match last (messages state) with
  | Some (AIMessage _ (_ :: _)) => "tools"
  | _ => "__end__"
  end.

(** The tables given with [toolsCondition] to [addConditionalEdges]: their
    keys are ["tools"] and ["end"]. *)
Definition researchEdges : gmap string Destination :=
  list_to_map [("tools", Goto research_tool_node); ("end", Goto supervisor)].

Definition redditEdges : gmap string Destination :=
  list_to_map [("tools", Goto reddit_tool_node); ("end", Goto supervisor)].

Section WithRuntime.
Context `{Runtime}.

Record Store := {
  world : World;
  featureRequestQueue : list FeatureRequestData
}.

Definition M : Type → Type := Eff Store.

Definition lift_world {A} (op : World → A * World) : M A :=
  λ s, let '(a, w) := op (world s) in
       (Normal a, {| world := w; featureRequestQueue := featureRequestQueue s |}).

Definition call {A} (op : World → option A * World) : M A :=
  bind (lift_world op) or_throw.

Definition push (featureData : FeatureRequestData) : M unit :=
  λ s, (Normal (), {| world := world s;
                      featureRequestQueue := featureRequestQueue s ++ [featureData] |}).

Definition supervisorNode (state : AgentState) : M Update :=
  bind (call (supervisorChain (messages state))) (λ response,
  let nextNodeName := JS.trim response in
  ret (only_nextAgent (validated nextNodeName))).

Definition featureRequestNode (state : AgentState) : M Update :=
  let relevantMessages := drop (length (messages state) - 1) (messages state) in
  bind
    (try_catch
       (bind (call (featureRequestChain relevantMessages)) (λ structuredOutput,
        let '(t, d, g, u) := structuredOutput in
        bind (lift_world randomUUID) (λ featureId,
        let featureData :=
          {| id := featureId; title := t; description := d;
             goals := g; use_cases := u |} in
        bind (push featureData) (λ _,
        ret ("OK, I've logged your feature request titled '" +:+ title featureData +:+
             "'. It's been added to our queue (ID: " +:+ featureId +:+
             "). Is there anything else I can help with?")))))
       (ret "Sorry, I had trouble formulating that feature request. Could you please try rephrasing?"))
    (λ outcomeMessage, ret (only_messages [AIMessage outcomeMessage []])).

Definition researchAgentNode (state : AgentState) : M Update :=
  bind (call (researchAgentRunnable (messages state))) (λ agentResponse,
  ret (only_messages [AIMessage agentResponse.1 agentResponse.2])).

Definition gmeRedditAgentNode (state : AgentState) : M Update :=
  bind (call (redditAgentRunnable (messages state))) (λ agentResponse,
  ret (only_messages [AIMessage agentResponse.1 agentResponse.2])).

(** [new ToolNode(tools)], from the graph library: it runs every tool call
    of the last message, which has to be a model message, and answers each
    with a tool message. *)
Definition toolNode (tools : ToolCall → World → string * World)
    (state : AgentState) : M Update :=
  match last (messages state) with
  | Some (AIMessage _ calls) =>
      bind (for_each (λ c, bind (lift_world (tools c))
                             (λ out, ret (ToolMessage out (tool_call_id c)))) calls)
           (λ outs, ret (only_messages outs))
  | _ => throw
  end.

Definition node (n : Node) : AgentState → M Update :=
  match n with
  | supervisor => supervisorNode
  | feature_request_agent => featureRequestNode
  | research_agent => researchAgentNode
  | research_tool_node => toolNode researchTools
  | gme_reddit_agent => gmeRedditAgentNode
  | reddit_tool_node => toolNode redditTools
  end.

(** The edges of the workflow. *)
Definition next (n : Node) (state : AgentState) : string + Destination :=
  let via (table : gmap string Destination) (key : string) :=
    match table !! key with
    | Some d => inr d
    | None => inl key
    end in
  match n with
  | supervisor => via supervisorEdges (nextAgent state)
  | feature_request_agent => inr (Goto supervisor)
  | research_agent => via researchEdges (toolsCondition state)
  | research_tool_node => inr (Goto research_agent)
  | gme_reddit_agent => via redditEdges (toolsCondition state)
  | reddit_tool_node => inr (Goto gme_reddit_agent)
  end.

(** The compiled workflow. The script sets no bound of its own on the
    number of node runs; [limit] is the step limit of the executor, and
    reaching it ends the pass with an error, also when the last permitted
    node run arrives at [END]. *)
Fixpoint run (limit : nat) (n : Node) (state : AgentState) (s : Store)
  : Halt * AgentState * Store :=
  match limit with
  | O => (RecursionLimit n, state, s)
  | S limit' =>
      match node n state s with
      | (Throw, s') => (NodeFailed n, state, s')
      | (Normal u, s') =>
          let state' := apply_update state u in
          match next n state' with
          | inr END =>
              match limit' with
              | O => (RecursionLimitAtEND, state', s')
              | S _ => (Finished, state', s')
              end
          | inr (Goto n') => run limit' n' state' s'
          | inl name => (UnknownDestination name, state', s')
          end
      end
  end.

(** One round of [runConversation]: the user's line is pushed onto the
    history, the graph runs on it, and the line printed for the assistant
    is taken from the last message; a pass that ends in an error leaves the
    history as it was after the push. *)
Definition conversationTurn (limit : nat) (line : string)
    (currentMessages : list BaseMessage) (s : Store)
  : string * list BaseMessage * Store :=
  let currentMessages := currentMessages ++ [HumanMessage line] in
  let inputs := {| messages := currentMessages; userInput := line;
                   nextAgent := EmptyString |} in
  match run limit supervisor inputs s with
  | (Finished, result, s') =>
      let printed :=
        match last (messages result) with
        | Some (AIMessage text _) => "Assistant: " +:+ text
        | Some (HumanMessage _) => "Assistant: [State: human]"
        | Some (ToolMessage _ _) => "Assistant: [State: tool]"
        | Some (SystemMessage _) => "Assistant: [State: system]"
        | None => "Assistant: [No response generated]"
        end in
      (printed, messages result, s')
  | (_, _, s') =>
      ("Assistant: Sorry, I encountered an error. Please try again.",
       currentMessages, s')
  end.

End WithRuntime.

(** *** The simulated Reddit tool

    [simulate_reddit_gme_fetcher], for an integer [limit]; [JSON.stringify]
    is a parameter. [None] is the [RangeError] of [Array(n)] for an [n] that
    is negative or above [2^32 - 1]. *)

Record SimulatedPost := {
  sim_author : string;
  sim_score : Z;
  sim_title : option string;
  sim_body : string;
  sim_created_utc : Z
}.

Definition simulatedData : list SimulatedPost := [
  {| sim_author := "redditor1"; sim_score := 150;
     sim_title := Some "GME to the moon again?";
     sim_body := "Just saw some unusual volume, anyone else thinking it's time?";
     sim_created_utc := 1678886400 |};
  {| sim_author := "diamond_hands"; sim_score := 50;
     sim_title := Some "Holding GME strong";
     sim_body := "Not selling my shares, fundamentals are strong.";
     sim_created_utc := 1678880000 |};
  {| sim_author := "paper_trader"; sim_score := -20;
     sim_title := Some "GME down again";
     sim_body := "Looks like the hype is over, might sell soon.";
     sim_created_utc := 1678870000 |};
  {| sim_author := "ape_together"; sim_score := 200;
     sim_title := None;
     sim_body := "RC tweet analysis! What does it mean for GME?? 🚀🚀";
     sim_created_utc := 1678890000 |};
  {| sim_author := "market_guru"; sim_score := 5;
     sim_title := None;
     sim_body := "GME sentiment seems mixed today, lots of volatility.";
     sim_created_utc := 1678888888 |}
].

(** [Math.ceil(limit / n)] for integers, [n] positive. *)
Definition ceil_div (limit n : Z) : Z := - ((- limit) / n).

(** [Array(copies).fill(simulatedData).flat()]. *)
Fixpoint filled (copies : nat) : list SimulatedPost :=
  match copies with
  | O => []
  | S copies' => simulatedData ++ filled copies'
  end.

(** The greatest length of an array, [2^32 - 1]. *)
Definition max_array_length : Z := 4294967295.

(** The elements that make up the array when they are written by index, as
    [flat()] does: an array holds the indices below [2^32 - 1] only. *)
Definition as_array {A} (elements : list A) : list A :=
  take (Z.to_nat (Z.min max_array_length (Z.of_nat (length elements)))) elements.

Definition repeatedData (limit : Z) : option (list SimulatedPost) :=
  let copies := ceil_div limit (Z.of_nat (length simulatedData)) in
  if (copies <? 0) || (max_array_length <? copies) then None
  else Some (JS.slice0 limit (as_array (filled (Z.to_nat copies)))).

Definition focused_on_GME (topic : string) : bool :=
  negb (String.eqb topic EmptyString)
  && bool_decide (JS.toLowerCase topic ∈ ["gme"; "gamestop"]).

Definition simulate_reddit_gme_fetcher
    (JSON_stringify : list SimulatedPost → string)
    (subreddit topic : string) (limit : Z) : option string :=
  if focused_on_GME topic
  then JSON_stringify <$> repeatedData limit
  else Some ("This tool is currently focused on GME. Cannot fetch for " +:+ topic +:+ ".").

End ReAct.

(** ** Scripted collaborators

    Concrete collaborators on which the definitions above run: a model that
    answers from a script, one reply per call (a [None] entry, or the end of
    the script, is a failed call), a clock that advances by one millisecond
    per reading, and decoders that know one sample each. *)

Module Scripted.

Record ScriptWorld := {
  replies : list (option string);
  clock : Z
}.

Definition answer (w : ScriptWorld) : option string * ScriptWorld :=
  match replies w with
  | [] => (None, w)
  | r :: rest => (r, {| replies := rest; clock := clock w |})
  end.

Definition tick (w : ScriptWorld) : Z * ScriptWorld :=
  (clock w, {| replies := replies w; clock := clock w + 1 |}).

Definition dark_mode_json : string :=
  "{" +:+ dq +:+ "title" +:+ dq +:+ ": " +:+ dq +:+ "Dark mode" +:+ dq +:+ ", " +:+
  dq +:+ "description" +:+ dq +:+ ": " +:+ dq +:+ "A dark colour scheme for the app" +:+ dq +:+ ", " +:+
  dq +:+ "userGoal" +:+ dq +:+ ": " +:+ dq +:+ "Read at night" +:+ dq +:+ ", " +:+
  dq +:+ "exampleUseCase" +:+ dq +:+ ": " +:+ dq +:+ "Switching the theme in settings" +:+ dq +:+ "}".

Definition focus_json : string :=
  "{" +:+ dq +:+ "subreddits" +:+ dq +:+ ": [" +:+ dq +:+ "Superstonk" +:+ dq +:+ "], " +:+
  dq +:+ "aspects" +:+ dq +:+ ": [" +:+ dq +:+ "sentiment" +:+ dq +:+ "], " +:+
  dq +:+ "timeFrame" +:+ dq +:+ ": " +:+ dq +:+ "week" +:+ dq +:+ "}".

Definition analysis_json : string :=
  "{" +:+ dq +:+ "sentiment" +:+ dq +:+ ": " +:+ dq +:+ "positive" +:+ dq +:+ ", " +:+
  dq +:+ "mainTopics" +:+ dq +:+ ": [" +:+ dq +:+ "NFT marketplace" +:+ dq +:+ "], " +:+
  dq +:+ "summary" +:+ dq +:+ ": " +:+ dq +:+ "Upbeat." +:+ dq +:+ ", " +:+
  dq +:+ "topPostsSummaries" +:+ dq +:+ ": []}".

Global Instance externals : Externals := {|
  World := ScriptWorld;
  llm_invoke := λ _, answer;
  Date_now := tick;
  decodeFeatureRequest := λ text,
    if decide (text = dark_mode_json)
    then Some ("Dark mode", "A dark colour scheme for the app",
               "Read at night", "Switching the theme in settings")
    else None;
  decodeFocus := λ text,
    if decide (text = focus_json)
    then Some {| subreddits := Some ["Superstonk"]; aspects := ["sentiment"];
                 timeFrame := Some "week" |}
    else None;
  decodeAnalysis := λ text,
    if decide (text = analysis_json)
    then Some {| analysis_sentiment := "positive";
                 analysis_mainTopics := ["NFT marketplace"];
                 analysis_summary := "Upbeat.";
                 topPostsSummaries := [] |}
    else None;
  JSON_stringify := λ posts, JS.join ("," +:+ nl) (api_title <$> posts)
|}.

Definition store (script : list (option string)) : Store :=
  {| world := {| replies := script; clock := 1700000000000 |};
     featureRequestQueue := FeatureRequestQueue.empty |}.

(** A session in which the user has said one thing. *)
Definition said (text : string) : GraphState :=
  {| messages := messages createInitialState ++ [formatUserMessage text];
     agentState := agentState createInitialState |}.

(** The state in which the router hands the turn to a worker. *)
Definition handed_to (worker text : string) : GraphState :=
  {| messages := messages (said text);
     agentState := with_currentAgent worker (agentState createInitialState) |}.

(** A model for the ReAct script that asks for one more search on every
    call, with tools that always answer. [World] counts the calls. *)
Definition one_search (n : nat) : ReAct.ToolCall :=
  {| ReAct.tool_name := "tavily_search_results_json";
     ReAct.tool_args := "climate";
     ReAct.tool_call_id := "call_" +:+ pretty n |}.

Definition one_fetch (n : nat) : ReAct.ToolCall :=
  {| ReAct.tool_name := "simulate_reddit_gme_fetcher";
     ReAct.tool_args := "wallstreetbets GME 10";
     ReAct.tool_call_id := "call_" +:+ pretty n |}.

Definition insatiable : ReAct.Runtime := {|
  ReAct.World := nat;
  ReAct.supervisorChain := λ _ n, (Some "research_agent", S n);
  ReAct.featureRequestChain := λ _ n, (None, S n);
  ReAct.randomUUID := λ n, ("00000000-0000-4000-8000-" +:+ pretty n, S n);
  ReAct.researchAgentRunnable := λ _ n, (Some (EmptyString, [one_search n]), S n);
  ReAct.redditAgentRunnable := λ _ n, (Some (EmptyString, [one_fetch n]), S n);
  ReAct.researchTools := λ _ n, ("[]", n);
  ReAct.redditTools := λ _ n, ("[]", n)
|}.

Definition fresh : @ReAct.Store insatiable :=
  @ReAct.Build_Store insatiable 0%nat [].

Definition asked (line : string) : ReAct.AgentState :=
  {| ReAct.messages := [ReAct.HumanMessage line];
     ReAct.userInput := line;
     ReAct.nextAgent := EmptyString |}.

(** A model for the ReAct script whose supervisor answers with a fixed text. *)
Definition supervisor_says (text : string) : ReAct.Runtime := {|
  ReAct.World := unit;
  ReAct.supervisorChain := λ _ w, (Some text, w);
  ReAct.featureRequestChain := λ _ w, (None, w);
  ReAct.randomUUID := λ w, ("00000000-0000-4000-8000-000000000000", w);
  ReAct.researchAgentRunnable := λ _ w, (None, w);
  ReAct.redditAgentRunnable := λ _ w, (None, w);
  ReAct.researchTools := λ _ w, ("[]", w);
  ReAct.redditTools := λ _ w, ("[]", w)
|}.

(** A model for the ReAct script whose supervisor sends every question to
    the research worker, and whose workers answer at once, without asking for
    a tool. *)
Definition answers_at_once : ReAct.Runtime := {|
  ReAct.World := unit;
  ReAct.supervisorChain := λ _ w, (Some "research_agent", w);
  ReAct.featureRequestChain := λ _ w, (None, w);
  ReAct.randomUUID := λ w, ("00000000-0000-4000-8000-000000000000", w);
  ReAct.researchAgentRunnable :=
    λ _ w, (Some ("Mostly the burning of fossil fuels.", []), w);
  ReAct.redditAgentRunnable := λ _ w, (Some ("Sentiment is mixed.", []), w);
  ReAct.researchTools := λ _ w, ("[]", w);
  ReAct.redditTools := λ _ w, ("[]", w)
|}.

End Scripted.

(** ** Vocabulary of the properties *)

(** The comparator [(a, b) => key(b) - key(a)], and the order it sorts
    into: descending by [key]. *)
Definition desc {A} (key : A → Z) (a b : A) : Z := key b - key a.

Definition above {A} (key : A → Z) (a b : A) : Prop := key b ≤ key a.

(** The fields of the agent state other than [taskCompleted]. *)
Definition same_but_taskCompleted (before after : AgentState) : Prop :=
  currentAgent after = currentAgent before
  ∧ featureRequests after = featureRequests before
  ∧ researchResults after = researchResults before
  ∧ redditSummary after = redditSummary before.

(** A computation that returns normally, whatever the store, with exactly
    one message appended to those of [state]. *)
Definition appends_one_message `{Externals} (state : GraphState)
    (m : M AgentResponse) : Prop :=
  ∀ s, ∃ out s' msg, m s = (Normal out, s') ∧ messages out = messages state ++ [msg].

(** A model that, on every call, asks for at least one more tool run. *)
Definition always_asks_for_tools `{ReAct.Runtime}
    (runnable : list ReAct.BaseMessage → ReAct.World
                → option (string * list ReAct.ToolCall) * ReAct.World) : Prop :=
  ∀ msgs w, ∃ text c calls w', runnable msgs w = (Some (text, c :: calls), w').

(** The messages of a tool loop that is still going: a request of the
    model for tool runs, or the answer of a tool. A reply to the user, which
    is a model message without tool calls, is not one. *)
Definition loop_message (m : ReAct.BaseMessage) : Prop :=
  match m with
  | ReAct.AIMessage _ (_ :: _) | ReAct.ToolMessage _ _ => True
  | _ => False
  end.

(** A pass that was stopped by the executor's step limit inside the loop of
    [agent] and [tools], having appended at least one message per node run
    and nothing but loop messages. *)
Definition still_looping `{ReAct.Runtime} (agent tools : ReAct.Node) (limit : nat)
    (state : ReAct.AgentState)
    (result : ReAct.Halt * ReAct.AgentState * ReAct.Store) : Prop :=
  ∃ n reached s' added,
    result = (ReAct.RecursionLimit n, reached, s')
    ∧ (n = agent ∨ n = tools)
    ∧ ReAct.messages reached = ReAct.messages state ++ added
    ∧ (limit ≤ length added)%nat
    ∧ Forall loop_message added.

(** The lines of the personal assistant. *)
Definition greeting : string :=
  "Hello! I'm your personal assistant. How can I help you today?".

Definition default_line : string := "How can I assist you today?".

Definition router_failure_line : string :=
  "I encountered an issue while processing your request. Please try again.".

(** The three ways through [personalAssistantAgent]. *)
Inductive Routed `{Externals} (state : GraphState) (s : Store)
  : string → string → Store → Prop :=
| routed_idle :
    JS.last_of (of_role user (messages state)) = None →
    Routed state s "PersonalAssistant" greeting s
| routed_by_model latestMessage response w :
    JS.last_of (of_role user (messages state)) = Some latestMessage →
    llm_invoke [ Agents.chat system Agents.router_instructions;
                 Agents.chat user (content latestMessage) ] (world s)
    = (Some response, w) →
    Routed state s (JS.trim response)
      (Agents.getRoutingMessage (JS.trim response) (content latestMessage))
      {| world := w; featureRequestQueue := featureRequestQueue s |}
| routed_on_failure latestMessage w :
    JS.last_of (of_role user (messages state)) = Some latestMessage →
    llm_invoke [ Agents.chat system Agents.router_instructions;
                 Agents.chat user (content latestMessage) ] (world s)
    = (None, w) →
    Routed state s "PersonalAssistant" router_failure_line
      {| world := w; featureRequestQueue := featureRequestQueue s |}.

Global Instance Node_eq_dec : EqDecision Graph.Node.
Proof. solve_decision. Defined.

(** A model whose answer to the routing prompt always names a node other
    than the personal assistant. *)
Definition always_names_a_worker `{Externals} : Prop :=
  ∀ text w, ∃ response w' n,
    llm_invoke [ Agents.chat system Agents.router_instructions;
                 Agents.chat user text ] w
    = (Some response, w')
    ∧ Graph.conditionalEdges !! JS.trim response = Some (Graph.Goto n).

(** Collaborators with a model of one answer: every call returns
    ["DeepResearchAgent"]. *)
Definition insistent : Externals := {|
  World := unit;
  llm_invoke := λ _ w, (Some "DeepResearchAgent", w);
  Date_now := λ w, (1700000000000, w);
  decodeFeatureRequest := λ _, None;
  decodeFocus := λ _, None;
  decodeAnalysis := λ _, None;
  JSON_stringify := λ _, "[]"
|}.

(** A computation that leaves the queue alone, however it ends. *)
Definition keeps_queue `{Externals} {A} (m : M A) : Prop :=
  ∀ s c s', m s = (c, s') → featureRequestQueue s' = featureRequestQueue s.

(** A computation that appends at most [k] requests to the queue and, when
    it returns, has appended the same requests to the feature requests of
    the agent state; when it throws it has appended nothing. *)
Definition logs `{Externals} (k : nat) (state : GraphState) (m : M AgentResponse) : Prop :=
  ∀ s c s', m s = (c, s') →
    ∃ added,
      featureRequestQueue s' = featureRequestQueue s ++ added
      ∧ (length added ≤ k)%nat
      ∧ match c with
        | Normal out =>
            featureRequests (agentState out)
            = featureRequests (agentState state) ++ added
        | Throw => added = []
        end.

(** [w] occurs in [s]. *)
Definition within (w s : string) : Prop := ∃ pre post, s = pre +:+ w +:+ post.

(** A computation that returns normally, whatever the store, with exactly
    one message appended, an assistant message signed [who]. *)
Definition signs `{Externals} (who : string) (state : GraphState)
    (m : M AgentResponse) : Prop :=
  ∀ s, ∃ out s' text,
    m s = (Normal out, s')
    ∧ messages out = messages state ++ [assistant_says who text].

(** The nodes of the two tool loops of the ReAct script. *)
Definition tool_loop_node (n : ReAct.Node) : bool :=
  match n with
  | ReAct.research_agent | ReAct.research_tool_node
  | ReAct.gme_reddit_agent | ReAct.reddit_tool_node => true
  | ReAct.supervisor | ReAct.feature_request_agent => false
  end.

(** The line that [runConversation] prints when the pass throws. *)
Definition conversation_error_line : string :=
  "Assistant: Sorry, I encountered an error. Please try again.".

(** * Properties *)

(** ** Sorting and slicing *)

Section SortByKey.
Context {A : Type} (key : A → Z).

Lemma insert_by_perm (cmp : A → A → Z) x l : JS.insert_by cmp x l ≡ₚ x :: l.
Proof.
  induction l as [|y l IH]; simpl; [done|].
  destruct (cmp x y <=? 0); [done|].
  rewrite IH. apply Permutation_swap.
Qed.

Lemma sort_by_perm (cmp : A → A → Z) l : JS.sort_by cmp l ≡ₚ l.
Proof.
  induction l as [|x l IH]; simpl; [done|].
  by rewrite insert_by_perm, IH.
Qed.

Lemma insert_by_sorted x l :
  StronglySorted (above key) l → StronglySorted (above key) (JS.insert_by (desc key) x l).
Proof.
  induction 1 as [|y l Hl IH Hy]; simpl.
  - repeat constructor.
  - unfold desc at 1. destruct (Z.leb_spec (key y - key x) 0) as [Hle|Hgt].
    + constructor; [by constructor|].
      constructor; [unfold above; lia|].
      eapply Forall_impl; [exact Hy|]. unfold above. intros; lia.
    + constructor; [done|].
      rewrite insert_by_perm. constructor; [unfold above; lia | done].
Qed.

Lemma sort_by_sorted l : StronglySorted (above key) (JS.sort_by (desc key) l).
Proof.
  induction l as [|x l IH]; simpl; [constructor | by apply insert_by_sorted].
Qed.

Lemma sorted_take n l : StronglySorted (above key) l → StronglySorted (above key) (take n l).
Proof.
  intros Hl. revert n. induction Hl as [|x l Hl IH Hx]; intros [|n]; simpl;
    try constructor; [apply IH|].
  eapply Forall_forall. intros y Hy. eapply Forall_forall in Hx; [exact Hx|].
  eapply subseteq_take, Hy.
Qed.

Lemma sorted_split n l a b :
  StronglySorted (above key) l → a ∈ take n l → b ∈ drop n l → above key a b.
Proof.
  intros Hl. revert n. induction Hl as [|x l Hl IH Hx]; intros n Ha Hb.
  - rewrite take_nil in Ha. by apply elem_of_nil in Ha.
  - destruct n as [|n]; simpl in *; [by apply elem_of_nil in Ha|].
    apply elem_of_cons in Ha as [->|Ha].
    + eapply Forall_forall in Hx; [exact Hx|]. eapply subseteq_drop, Hb.
    + by eapply IH.
Qed.

(** The sort is stable: the elements of one key keep their order. *)
Lemma insert_by_stable x l t :
  filter (λ a, key a = t) (JS.insert_by (desc key) x l)
  = filter (λ a, key a = t) (x :: l).
Proof.
  induction l as [|y l IH]; simpl; [done|].
  unfold desc at 1. destruct (Z.leb_spec (key y - key x) 0) as [Hle|Hgt]; [done|].
  rewrite filter_cons, IH, !filter_cons.
  destruct (decide (key y = t)) as [Hy|Hy], (decide (key x = t)) as [Hx|Hx];
    try done; lia.
Qed.

Lemma sort_by_stable l t :
  filter (λ a, key a = t) (JS.sort_by (desc key) l) = filter (λ a, key a = t) l.
Proof.
  induction l as [|x l IH]; simpl; [done|].
  by rewrite insert_by_stable, !filter_cons, IH.
Qed.

End SortByKey.

Lemma slice0_nat {A} (k : nat) (l : list A) : JS.slice0 (Z.of_nat k) l = take k l.
Proof.
  unfold JS.slice0. destruct (Z.ltb_spec (Z.of_nat k) 0); [lia|].
  by rewrite Nat2Z.id.
Qed.

Lemma appended_app items q :
  FeatureRequestQueue.appended items q = q ++ items.
Proof.
  revert q. induction items as [|r items IH]; intros q; simpl.
  - by rewrite app_nil_r.
  - unfold FeatureRequestQueue.appended in *. simpl. rewrite IH.
    by rewrite <- app_assoc.
Qed.

(** ** The routing decision *)

(** C1. The routing decision is the supervisor's own identifier when
    [taskCompleted] is set and [currentAgent], unchanged, otherwise; the
    conditional edges send the supervisor's identifier to [END], which ends
    the pass. *)
Theorem router_decision (state : GraphState) :
  Graph.router state =
    (if taskCompleted (agentState state) then "PersonalAssistant"
     else currentAgent (agentState state))
  ∧ Graph.conditionalEdges !! "PersonalAssistant" = Some Graph.END.
Proof. split; [reflexivity | by vm_compute]. Qed.

(** The executor takes the supervisor's identifier for the end of the
    pass: when the routing decision after the personal-assistant node is that
    identifier, the pass is finished with the merged state, with no further
    node run, provided the step limit leaves a unit to spare. *)
Lemma supervisor_identifier_is_terminal `{Externals} limit state s out s' :
  Agents.personalAssistantAgent state s = (Normal out, s') →
  Graph.router (Graph.merge state out) = "PersonalAssistant" →
  Graph.run (S (S limit)) Graph.PersonalAssistant state s
  = (Graph.Finished, Graph.merge state out, s').
Proof.
  intros Hnode Hroute. change (Graph.run (S (S limit)) Graph.PersonalAssistant state s)
    with (match Graph.node Graph.PersonalAssistant state s with
          | (Throw, s') => (Graph.NodeFailed Graph.PersonalAssistant, state, s')
          | (Normal out, s') =>
              match Graph.conditionalEdges !! Graph.router (Graph.merge state out) with
              | Some Graph.END => (Graph.Finished, Graph.merge state out, s')
              | Some (Graph.Goto next) => Graph.run (S limit) next (Graph.merge state out) s'
              | None => (Graph.UnknownDestination (Graph.router (Graph.merge state out)),
                         Graph.merge state out, s')
              end
          end).
  simpl Graph.node. by rewrite Hnode, Hroute.
Qed.

(** C7. The routing decision depends on the state through [taskCompleted]
    and [currentAgent] only: two states that agree on both get the same next
    node. *)
Theorem router_deterministic (s1 s2 : GraphState) :
  taskCompleted (agentState s1) = taskCompleted (agentState s2) →
  currentAgent (agentState s1) = currentAgent (agentState s2) →
  Graph.router s1 = Graph.router s2.
Proof. unfold Graph.router. by intros -> ->. Qed.

Lemma router_deterministic_witness :
  Graph.router (Scripted.handed_to "DeepResearchAgent" "What causes climate change?")
  = Graph.router
      {| messages := [];
         agentState :=
           with_featureRequests
             [ {| title := "Dark mode"; description := "A dark colour scheme";
                  userGoal := "Read at night"; exampleUseCase := "Settings";
                  timestamp := 1700000000000 |} ]
             (with_currentAgent "DeepResearchAgent" (agentState createInitialState)) |}.
Proof. apply router_deterministic; reflexivity. Defined.

(** ** The tools *)

(** C10. The social-feed fetch does not look at its [timeFrame] argument:
    from the same store, two calls with the same subreddit list return the
    same posts (and leave the same store) whatever the two time frames. *)
Theorem fetchRedditPosts_ignores_timeFrame `{Externals}
    (subreddits : option (list string)) (timeFrame1 timeFrame2 : option string)
    (s : Store) :
  RedditApi.fetchRedditPosts subreddits timeFrame1 s
  = RedditApi.fetchRedditPosts subreddits timeFrame2 s.
Proof. reflexivity. Qed.

(** C6. After appending [items] to the empty queue, [getAllFeatureRequests]
    returns [items] in append order; and for [k] at most their number,
    [getRecentFeatureRequests(k)] returns [k] of them, in descending order of
    timestamp, none of them older than any item it leaves out. *)
Theorem queue_append_then_read (items : list FeatureRequest) (k : nat) :
  (k ≤ length items)%nat →
  let q := FeatureRequestQueue.appended items FeatureRequestQueue.empty in
  let recent := FeatureRequestQueue.getRecentFeatureRequests (Some (Z.of_nat k)) q in
  FeatureRequestQueue.getAllFeatureRequests q = items
  ∧ length recent = k
  ∧ StronglySorted (λ a b, timestamp b ≤ timestamp a) recent
  ∧ ∃ older, recent ++ older ≡ₚ items
             ∧ ∀ a b, a ∈ recent → b ∈ older → timestamp b ≤ timestamp a.
Proof.
  intros Hk q recent. subst q recent.
  rewrite appended_app. unfold FeatureRequestQueue.empty. simpl.
  unfold FeatureRequestQueue.getAllFeatureRequests,
    FeatureRequestQueue.getRecentFeatureRequests. simpl.
  rewrite slice0_nat.
  change FeatureRequestQueue.by_timestamp_desc with (desc timestamp).
  set (sorted := JS.sort_by (desc timestamp) items).
  assert (Hperm : sorted ≡ₚ items) by apply sort_by_perm.
  assert (Hsorted : StronglySorted (above timestamp) sorted) by apply sort_by_sorted.
  split; [done|]. split.
  { rewrite length_take, Hperm. lia. }
  split.
  { by apply (sorted_take timestamp). }
  exists (drop k sorted). split.
  - by rewrite take_drop.
  - intros a b Ha Hb. by apply (sorted_split timestamp k sorted).
Qed.

Lemma queue_append_then_read_witness :
  let request name t :=
    {| title := name; description := "d"; userGoal := "g"; exampleUseCase := "e";
       timestamp := t |} in
  let items := [request "first" 30; request "second" 10; request "third" 20] in
  let q := FeatureRequestQueue.appended items FeatureRequestQueue.empty in
  let recent := FeatureRequestQueue.getRecentFeatureRequests (Some 2) q in
  FeatureRequestQueue.getAllFeatureRequests q = items
  ∧ length recent = 2%nat
  ∧ StronglySorted (λ a b, timestamp b ≤ timestamp a) recent
  ∧ ∃ older, recent ++ older ≡ₚ items
             ∧ ∀ a b, a ∈ recent → b ∈ older → timestamp b ≤ timestamp a.
Proof.
  intros request items.
  apply (queue_append_then_read items 2). simpl. lia.
Defined.

(** The same queue, run: the two most recent of three requests. *)
Example recent_two_of_three :
  title <$> FeatureRequestQueue.getRecentFeatureRequests (Some 2)
              (FeatureRequestQueue.appended
                 [ {| title := "first"; description := "d"; userGoal := "g";
                      exampleUseCase := "e"; timestamp := 30 |};
                   {| title := "second"; description := "d"; userGoal := "g";
                      exampleUseCase := "e"; timestamp := 10 |};
                   {| title := "third"; description := "d"; userGoal := "g";
                      exampleUseCase := "e"; timestamp := 20 |} ]
                 FeatureRequestQueue.empty)
  = ["first"; "third"].
Proof. reflexivity. Qed.

Lemma knowledgeBase_entries_nonempty keyword entries :
  ResearchTools.knowledgeBase !! keyword = Some entries → entries ≠ [].
Proof.
  revert keyword entries. change (map_Forall (λ _ entries, entries ≠ [])
                                    ResearchTools.knowledgeBase).
  unfold ResearchTools.knowledgeBase. simpl.
  repeat (apply map_Forall_insert_2; [done|]). apply map_Forall_empty.
Qed.

Lemma knowledge_hits_nil keywords :
  ResearchTools.knowledge_hits keywords = []
  ↔ Forall (λ kw, ResearchTools.knowledgeBase !! JS.toLowerCase kw = None) keywords.
Proof.
  induction keywords as [|kw kws IH]; simpl; [by split; intros; constructor|].
  destruct (ResearchTools.knowledgeBase !! JS.toLowerCase kw) as [entries|] eqn:Hkw.
  - split.
    + intros [Hnil _]%app_eq_nil. apply fmap_nil_inv in Hnil.
      by apply knowledgeBase_entries_nonempty in Hkw.
    + intros Hall. apply Forall_cons in Hall as [Hnone _]. congruence.
  - rewrite IH. split; [by constructor | by intros [_ ?]%Forall_cons].
Qed.

(** C8, as amended. What the research lookup returns is decided by the
    extracted keywords: with no keyword at all it is exactly the generic
    "outside our current knowledge domain" pair; with keywords none of which
    is a key of the knowledge base it is the pair of "[External API]"
    snippets about the first keyword; and when some keyword is a key of the
    knowledge base it is the knowledge-base snippets of the matching
    keywords. *)
Theorem performResearch_by_keywords (question : string) :
  let keywords := ResearchTools.extractKeywords question in
  let unknown kw := ResearchTools.knowledgeBase !! JS.toLowerCase kw = None in
  (keywords = [] →
     ResearchTools.performResearch question = ResearchTools.generic_pair)
  ∧ (∀ keyword0 rest, keywords = keyword0 :: rest → Forall unknown keywords →
     ResearchTools.performResearch question = ResearchTools.external_pair keyword0)
  ∧ (Exists (λ kw, ¬ unknown kw) keywords →
     ResearchTools.performResearch question = ResearchTools.knowledge_hits keywords
     ∧ ResearchTools.knowledge_hits keywords ≠ []).
Proof.
  intros keywords unknown. unfold ResearchTools.performResearch.
  fold keywords. split; [|split].
  - intros ->. reflexivity.
  - intros keyword0 rest -> Hall.
    apply knowledge_hits_nil in Hall. rewrite Hall. reflexivity.
  - intros Hex.
    assert (Hne : ResearchTools.knowledge_hits keywords ≠ []).
    { intros Hnil%knowledge_hits_nil. apply Exists_exists in Hex as (kw & Hin & Hkw).
      eapply Forall_forall in Hnil; [|exact Hin]. by apply Hkw. }
    split; [|done].
    destruct (ResearchTools.knowledge_hits keywords) as [|hit hits]; [done|].
    by destruct keywords.
Qed.

Lemma performResearch_by_keywords_witness :
  ResearchTools.performResearch EmptyString = ResearchTools.generic_pair
  ∧ ResearchTools.performResearch "pizza" = ResearchTools.external_pair "pizza"
  ∧ ResearchTools.performResearch "What causes climate change?"
    = ResearchTools.knowledge_hits ["climate change"].
Proof.
  split; [|split].
  - apply (performResearch_by_keywords EmptyString). reflexivity.
  - apply (performResearch_by_keywords "pizza") with (rest := []).
    + reflexivity.
    + vm_compute. repeat constructor.
  - apply (performResearch_by_keywords "What causes climate change?").
    vm_compute. left. discriminate.
Defined.

(** C8, as first stated, fails: the query "pizza" has one keyword, which
    matches nothing in the knowledge base, and the lookup answers with the
    "[External API]" pair, not with the generic pair. *)
Lemma performResearch_unmatched_keyword_not_generic :
  Forall (λ kw, ResearchTools.knowledgeBase !! JS.toLowerCase kw = None)
         (ResearchTools.extractKeywords "pizza")
  ∧ ResearchTools.performResearch "pizza" ≠ ResearchTools.generic_pair.
Proof.
  split.
  - vm_compute. repeat constructor.
  - vm_compute. discriminate.
Qed.

(** X16. A worker is entered only as the current agent of an unfinished task:
    when the table of conditional edges sends the routing decision to a node,
    [currentAgent] is the name of that node, which is a worker, and
    [taskCompleted] is false. *)
Lemma worker_entered_as_current (state : GraphState) (n : Graph.Node) :
  Graph.conditionalEdges !! Graph.router state = Some (Graph.Goto n) →
  taskCompleted (agentState state) = false
  ∧ currentAgent (agentState state) = Graph.name n
  ∧ n ≠ Graph.PersonalAssistant.
Proof.
  unfold Graph.router. destruct (taskCompleted (agentState state)).
  { intros Hedge. by vm_compute in Hedge. }
  generalize (currentAgent (agentState state)). intros key Hedge.
  unfold Graph.conditionalEdges in Hedge. simpl in Hedge.
  repeat (apply lookup_insert_Some in Hedge as [[<- Heq]|[_ Hedge]];
          [by simplify_eq|]).
  by rewrite lookup_empty in Hedge.
Qed.

(** ** The workers *)

Lemma with_taskCompleted_frame b a :
  taskCompleted (with_taskCompleted b a) = b
  ∧ same_but_taskCompleted a (with_taskCompleted b a).
Proof. by repeat split. Qed.

Lemma llm_returns `{Externals} prompt s response w :
  llm_invoke prompt (world s) = (Some response, w) →
  llm prompt s
  = (Normal response, {| world := w; featureRequestQueue := featureRequestQueue s |}).
Proof. intros Hllm. unfold llm, bind, lift_world. by rewrite Hllm. Qed.

Lemma llm_fails `{Externals} prompt s w :
  llm_invoke prompt (world s) = (None, w) →
  llm prompt s = (Throw, {| world := w; featureRequestQueue := featureRequestQueue s |}).
Proof. intros Hllm. unfold llm, bind, lift_world. by rewrite Hllm. Qed.

Lemma messages_reducer_extends prev msgs :
  Graph.messages_reducer prev (prev ++ msgs) = prev ++ msgs.
Proof. unfold Graph.messages_reducer. by rewrite drop_app_length. Qed.

Lemma merge_appended state msg a :
  Graph.merge state {| messages := messages state ++ [msg]; agentState := a |}
  = {| messages := messages state ++ [msg]; agentState := a |}.
Proof. unfold Graph.merge. simpl. by rewrite messages_reducer_extends. Qed.

(** The three ways through [personalAssistantAgent], each with the routing
    decision that follows it. *)
Lemma personalAssistantAgent_routes `{Externals} (state : GraphState) (s : Store) :
  ∃ name line s',
    Routed state s name line s'
    ∧ Agents.personalAssistantAgent state s
      = (Normal {| messages := messages state ++ [assistant_says "PersonalAssistant" line];
                   agentState :=
                     with_taskCompleted false (with_currentAgent name (agentState state)) |},
         s')
    ∧ Graph.router
        (Graph.merge state
           {| messages := messages state ++ [assistant_says "PersonalAssistant" line];
              agentState :=
                with_taskCompleted false (with_currentAgent name (agentState state)) |})
      = name.
Proof.
  unfold Agents.personalAssistantAgent.
  destruct (JS.last_of (of_role user (messages state))) as [latestMessage|] eqn:Hlast.
  - destruct (llm_invoke [ Agents.chat system Agents.router_instructions;
                           Agents.chat user (content latestMessage) ] (world s))
      as [[response|] w] eqn:Hllm.
    + eexists _, _, _. split; [by eapply routed_by_model|]. split; [|done].
      unfold try_catch, mbind, M_bind, bind. by rewrite (llm_returns _ _ _ _ Hllm).
    + eexists _, _, _. split; [by eapply routed_on_failure|]. split; [|done].
      unfold try_catch, mbind, M_bind, bind. by rewrite (llm_fails _ _ _ Hllm).
  - eexists _, _, _. split; [by apply routed_idle|]. by split.
Qed.

(** C4. When the model answers the feature-capture worker with a text that
    cannot be decoded, the worker returns normally with the clarification
    request appended to the messages, [taskCompleted] false and the rest of
    the agent state as it was, so that [currentAgent], which named this worker
    when it was entered, still names it and the routing decision on the
    returned state is this worker; the queue is the one it started with.
    The worker is not entered again on the strength of that state: the
    edge out of the worker is unconditional, so the next node run of the pass
    is the personal assistant's, on the returned state, and it decides the
    route anew, by the model when there is a user message, and writes its
    decision over [currentAgent]. *)
Theorem featureRequest_parse_failure `{Externals}
    (limit : nat) (state : GraphState) (s : Store) (response : string) (w : World) :
  llm_invoke (Agents.feature_prompt state) (world s) = (Some response, w) →
  decodeFeatureRequest response = None →
  currentAgent (agentState state) = "FeatureRequestAgent" →
  ∃ out s',
    Agents.featureRequestAgent state s = (Normal out, s')
    ∧ messages out = messages state ++ [Agents.feature_clarification]
    ∧ taskCompleted (agentState out) = false
    ∧ currentAgent (agentState out) = "FeatureRequestAgent"
    ∧ Graph.router out = "FeatureRequestAgent"
    ∧ featureRequests (agentState out) = featureRequests (agentState state)
    ∧ featureRequestQueue s' = featureRequestQueue s
    ∧ Graph.run (S limit) Graph.FeatureRequestAgent state s
      = Graph.run limit Graph.PersonalAssistant out s'
    ∧ ∃ name line s'',
        Routed out s' name line s''
        ∧ Graph.node Graph.PersonalAssistant out s'
          = (Normal {| messages := messages out ++ [assistant_says "PersonalAssistant" line];
                       agentState :=
                         with_taskCompleted false
                           (with_currentAgent name (agentState out)) |},
             s'').
Proof.
  intros Hllm Hdecode Hcurrent.
  assert (Hnode :
    Agents.featureRequestAgent state s
    = (Normal {| messages := messages state ++ [Agents.feature_clarification];
                 agentState := with_taskCompleted false (agentState state) |},
       {| world := w; featureRequestQueue := featureRequestQueue s |})).
  { unfold Agents.featureRequestAgent, try_catch at 1.
    unfold mbind, M_bind, bind at 1. rewrite (llm_returns _ _ _ _ Hllm).
    unfold try_catch, Agents.featureRequest_parsed, mbind, M_bind, bind.
    by rewrite Hdecode. }
  eexists _, _. split; [exact Hnode|].
  do 3 (split; [done|]).
  split; [unfold Graph.router; simpl; by rewrite Hcurrent|].
  do 2 (split; [done|]).
  split.
  - simpl. by rewrite Hnode, merge_appended.
  - destruct (personalAssistantAgent_routes
                {| messages := messages state ++ [Agents.feature_clarification];
                   agentState := with_taskCompleted false (agentState state) |}
                {| world := w; featureRequestQueue := featureRequestQueue s |})
      as (name & line & s'' & Hrouted & Hpa & _).
    by exists name, line, s''.
Qed.

Lemma featureRequest_parse_failure_witness :
  ∃ out s',
    Agents.featureRequestAgent
      (Scripted.handed_to "FeatureRequestAgent" "I wish the app had dark mode")
      (Scripted.store [Some "Sure! Here is the request you asked for."])
    = (Normal out, s')
    ∧ messages out
      = messages (Scripted.handed_to "FeatureRequestAgent" "I wish the app had dark mode")
        ++ [Agents.feature_clarification]
    ∧ taskCompleted (agentState out) = false
    ∧ currentAgent (agentState out) = "FeatureRequestAgent"
    ∧ Graph.router out = "FeatureRequestAgent"
    ∧ featureRequests (agentState out) = []
    ∧ featureRequestQueue s' = []
    ∧ Graph.run 25 Graph.FeatureRequestAgent
        (Scripted.handed_to "FeatureRequestAgent" "I wish the app had dark mode")
        (Scripted.store [Some "Sure! Here is the request you asked for."])
      = Graph.run 24 Graph.PersonalAssistant out s'
    ∧ ∃ name line s'',
        Routed out s' name line s''
        ∧ Graph.node Graph.PersonalAssistant out s'
          = (Normal {| messages := messages out ++ [assistant_says "PersonalAssistant" line];
                       agentState :=
                         with_taskCompleted false
                           (with_currentAgent name (agentState out)) |},
             s'').
Proof.
  apply (featureRequest_parse_failure 24
           (Scripted.handed_to "FeatureRequestAgent" "I wish the app had dark mode")
           (Scripted.store [Some "Sure! Here is the request you asked for."])
           "Sure! Here is the request you asked for."
           {| Scripted.replies := []; Scripted.clock := 1700000000000 |});
    reflexivity.
Defined.

(** Run: the worker is not re-entered past the supervisor. The model routes
    the request to the feature-capture worker and then answers it with a
    text that cannot be decoded; the node that runs next in the same pass is
    the personal assistant, which asks the model for the route again, and the
    pass ends with [currentAgent] naming the personal assistant. The user's
    next request is handled from a fresh state: the personal assistant is
    asked first and, as the model names it, answers itself, and the reply
    that the model had ready for the worker is left unread. *)
Example parse_failure_returns_to_the_router :
  (∃ reached,
     Graph.invoke 25 (Scripted.said "I wish the app had dark mode")
       (Scripted.store [Some "FeatureRequestAgent";
                        Some "Sure! Here is the request you asked for.";
                        Some "PersonalAssistant"])
     = (Graph.Finished, reached, Scripted.store [])
     ∧ agentName <$> of_role assistant (messages reached)
       = [Some "PersonalAssistant"; Some "FeatureRequestAgent"; Some "PersonalAssistant"]
     ∧ of_role assistant (messages reached) !! 1%nat = Some Agents.feature_clarification
     ∧ currentAgent (agentState reached) = "PersonalAssistant"
     ∧ Graph.router reached ≠ "FeatureRequestAgent")
  ∧ Graph.handler 25 "It should follow the system theme"
      (Scripted.store [Some "PersonalAssistant"; Some Scripted.dark_mode_json])
    = (Some default_line, Scripted.store [Some Scripted.dark_mode_json]).
Proof.
  split.
  - eexists. split; [by vm_compute|]. by vm_compute.
  - by vm_compute.
Qed.

(** C9. When the [try] block of the deep-research worker, or of the
    social-summary worker, throws, the worker returns normally with its
    apology appended to the messages and with the agent state it was given,
    except that [taskCompleted] is false: [currentAgent] is untouched and
    neither [researchResults] nor [redditSummary] (nor the feature requests)
    is written. *)
Theorem worker_error_branch_frame `{Externals} (state : GraphState) (s s' : Store) :
  (Agents.deepResearch_attempt state s = (Throw, s') →
   ∃ out,
     Agents.deepResearchAgent state s = (Normal out, s')
     ∧ messages out = messages state ++ [Agents.research_failure]
     ∧ taskCompleted (agentState out) = false
     ∧ same_but_taskCompleted (agentState state) (agentState out))
  ∧ (Agents.gmeRedditSummary_attempt state s = (Throw, s') →
     ∃ out,
       Agents.gmeRedditSummaryAgent state s = (Normal out, s')
       ∧ messages out = messages state ++ [Agents.reddit_failure]
       ∧ taskCompleted (agentState out) = false
       ∧ same_but_taskCompleted (agentState state) (agentState out)).
Proof.
  split; intros Hthrow; eexists;
    (split;
     [ unfold Agents.deepResearchAgent, Agents.gmeRedditSummaryAgent, try_catch;
       rewrite Hthrow; reflexivity
     | by repeat split ]).
Qed.

Lemma worker_error_branch_frame_witness :
  let state :=
    {| messages := messages (Scripted.said "What is GME doing on Reddit?");
       agentState :=
         with_researchResults
           {| question := "What causes climate change?";
              answer := "Greenhouse gases."; sources := [] |}
           (with_currentAgent "GmeRedditSummaryAgent" (agentState createInitialState)) |} in
  (∃ out,
     Agents.deepResearchAgent state (Scripted.store [None])
     = (Normal out, Scripted.store [])
     ∧ messages out = messages state ++ [Agents.research_failure]
     ∧ taskCompleted (agentState out) = false
     ∧ same_but_taskCompleted (agentState state) (agentState out))
  ∧ (∃ out,
       Agents.gmeRedditSummaryAgent state (Scripted.store [Some "no JSON here"])
       = (Normal out, Scripted.store [])
       ∧ messages out = messages state ++ [Agents.reddit_failure]
       ∧ taskCompleted (agentState out) = false
       ∧ same_but_taskCompleted (agentState state) (agentState out)).
Proof.
  intros state. split.
  - apply (worker_error_branch_frame state (Scripted.store [None]) (Scripted.store [])).
    reflexivity.
  - apply (worker_error_branch_frame state (Scripted.store [Some "no JSON here"])
             (Scripted.store [])).
    reflexivity.
Defined.

(** ** Messages are append-only *)

Lemma bind_normal {S A B} (m : Eff S A) (k : A → Eff S B) s b s' :
  bind m k s = (Normal b, s') →
  ∃ a s1, m s = (Normal a, s1) ∧ k a s1 = (Normal b, s').
Proof.
  unfold bind. destruct (m s) as [[a|] s1]; [eauto | discriminate].
Qed.

Lemma ret_normal {S A} (a b : A) (s s' : S) :
  ret a s = (Normal b, s') → b = a.
Proof. unfold ret. congruence. Qed.

(** Take apart a sequence of binds that is known to end normally. *)
Ltac bind_inv H :=
  unfold mbind, mret, M_bind, M_ret, Eff_bind, Eff_ret in H;
  repeat lazymatch type of H with
    | bind _ _ _ = (Normal _, _) =>
        let a := fresh "a" in let s1 := fresh "s" in let H1 := fresh "H" in
        apply bind_normal in H as (a & s1 & H1 & H)
    | (let '(_, _) := ?p in _) _ = _ => destruct p as [? ?]
    | (let '(_, _) := ?p in _) = _ => destruct p as [? ?]
    end.

Lemma ret_appends `{Externals} state msg a :
  appends_one_message state
    (mret {| messages := messages state ++ [msg]; agentState := a |}).
Proof. intros s. by eexists _, _, _. Qed.

Lemma try_catch_appends `{Externals} state (body handler : M AgentResponse) :
  (∀ s out s', body s = (Normal out, s') →
     ∃ msg, messages out = messages state ++ [msg]) →
  appends_one_message state handler →
  appends_one_message state (try_catch body handler).
Proof.
  intros Hbody Hhandler s. unfold try_catch.
  destruct (body s) as [[out|] s'] eqn:Hrun.
  - destruct (Hbody _ _ _ Hrun) as [msg Hmsg]. by eexists _, _, _.
  - apply Hhandler.
Qed.

Lemma personalAssistantAgent_appends `{Externals} state :
  appends_one_message state (Agents.personalAssistantAgent state).
Proof.
  unfold Agents.personalAssistantAgent.
  destruct (JS.last_of _) as [latestMessage|]; [|apply ret_appends].
  apply try_catch_appends; [|apply ret_appends].
  intros s out s' Hrun. bind_inv Hrun.
  apply ret_normal in Hrun as ->. by eexists.
Qed.

Lemma featureRequestAgent_appends `{Externals} state :
  appends_one_message state (Agents.featureRequestAgent state).
Proof.
  unfold Agents.featureRequestAgent.
  apply try_catch_appends; [|apply ret_appends].
  intros s out s' Hrun. bind_inv Hrun.
  destruct (try_catch_appends state (Agents.featureRequest_parsed state a)
              (mret {| messages := messages state ++ [Agents.feature_clarification];
                       agentState := with_taskCompleted false (agentState state) |}))
    with (s := s0) as (out' & s'' & msg & Hrun' & Hmsg).
  - clear. intros s out s' Hrun. unfold Agents.featureRequest_parsed in Hrun.
    bind_inv Hrun. apply ret_normal in Hrun as ->. by eexists.
  - apply ret_appends.
  - exists msg. unfold mret, M_ret in Hrun'. congruence.
Qed.

Lemma deepResearchAgent_appends `{Externals} state :
  appends_one_message state (Agents.deepResearchAgent state).
Proof.
  unfold Agents.deepResearchAgent.
  apply try_catch_appends; [|apply ret_appends].
  intros s out s' Hrun. unfold Agents.deepResearch_attempt in Hrun.
  bind_inv Hrun. apply ret_normal in Hrun as ->. by eexists.
Qed.

Lemma gmeRedditSummaryAgent_appends `{Externals} state :
  appends_one_message state (Agents.gmeRedditSummaryAgent state).
Proof.
  unfold Agents.gmeRedditSummaryAgent.
  apply try_catch_appends; [|apply ret_appends].
  intros s out s' Hrun. unfold Agents.gmeRedditSummary_attempt in Hrun.
  bind_inv Hrun. apply ret_normal in Hrun as ->. by eexists.
Qed.

Lemma node_appends `{Externals} n state :
  appends_one_message state (Graph.node n state).
Proof.
  destruct n; simpl;
    auto using personalAssistantAgent_appends, featureRequestAgent_appends,
      deepResearchAgent_appends, gmeRedditSummaryAgent_appends.
Qed.

Lemma run_extends `{Externals} limit n state s :
  messages state `prefix_of` messages (Graph.run limit n state s).1.2.
Proof.
  revert n state s. induction limit as [|limit IH]; intros n state s; simpl; [done|].
  destruct (node_appends n state s) as (out & s' & msg & -> & Hout).
  assert (Hstep : messages state `prefix_of` messages (Graph.merge state out)).
  { simpl. rewrite Hout, messages_reducer_extends. by apply prefix_app_r. }
  destruct n; simpl;
    try (etrans; [exact Hstep | apply IH]).
  destruct (Graph.conditionalEdges !! _) as [[next|]|]; simpl; try exact Hstep.
  - etrans; [exact Hstep | apply IH].
  - by destruct limit.
Qed.

(** C5. Every node of the graph returns the messages it was given with one
    message appended, and merging that into the state appends the same
    message; so along a pass of the executor, however far it gets, the
    messages at the start are a prefix of the messages reached and their
    number does not decrease. *)
Theorem messages_only_grow `{Externals} :
  (∀ n state s, ∃ out s' msg,
      Graph.node n state s = (Normal out, s')
      ∧ messages out = messages state ++ [msg]
      ∧ messages (Graph.merge state out) = messages state ++ [msg])
  ∧ (∀ limit n state s,
       let reached := (Graph.run limit n state s).1.2 in
       messages state `prefix_of` messages reached
       ∧ (length (messages state) ≤ length (messages reached))%nat).
Proof.
  split.
  - intros n state s.
    destruct (node_appends n state s) as (out & s' & msg & Hrun & Hout).
    exists out, s', msg. repeat split; [done..|].
    simpl. by rewrite Hout, messages_reducer_extends.
  - intros limit n state s reached.
    assert (Hprefix := run_extends limit n state s). fold reached in Hprefix.
    split; [done | by apply prefix_length].
Qed.

(** The ReAct script has the same invariant, by its reducer alone: a node
    hands in new messages only, and the channel concatenates them. *)
Lemma react_run_extends `{ReAct.Runtime} limit n state s :
  ReAct.messages state `prefix_of` ReAct.messages (ReAct.run limit n state s).1.2.
Proof.
  revert n state s. induction limit as [|limit IH]; intros n state s; simpl; [done|].
  destruct (ReAct.node n state s) as [[u|] s']; simpl; [|done].
  assert (Hstep : ReAct.messages state
                  `prefix_of` ReAct.messages (ReAct.apply_update state u)).
  { simpl. destruct (ReAct.new_messages u); simpl; [by apply prefix_app_r | done]. }
  destruct (ReAct.next n _) as [name|[n'|]]; simpl; try exact Hstep.
  - etrans; [exact Hstep | apply IH].
  - by destruct limit.
Qed.

(** ** Routing on the model's answer *)

(** X15. The supervisor of the ReAct script checks the model's answer against the
    declared node names: the name it writes is always a declared one, with an
    edge in the table, and an answer that is not declared becomes [FINISH],
    whose edge is [END]. *)
Lemma supervisorNode_validates `{ReAct.Runtime}
    (state : ReAct.AgentState) (s : ReAct.Store) (response : string) (w : ReAct.World) :
  ReAct.supervisorChain (ReAct.messages state) (ReAct.world s) = (Some response, w) →
  ∃ name s',
    ReAct.supervisorNode state s = (Normal (ReAct.only_nextAgent name), s')
    ∧ name ∈ ReAct.validNodes
    ∧ is_Some (ReAct.supervisorEdges !! name)
    ∧ (JS.trim response ∉ ReAct.validNodes →
       name = "FINISH" ∧ ReAct.supervisorEdges !! name = Some ReAct.END).
Proof.
  intros Hchain. exists (ReAct.validated (JS.trim response)). eexists. split.
  { unfold ReAct.supervisorNode, ReAct.call, ReAct.lift_world, bind.
    rewrite Hchain. reflexivity. }
  unfold ReAct.validated. case_bool_decide as Hvalid.
  - split; [done|]. split; [|done].
    unfold ReAct.validNodes in Hvalid.
    repeat (apply elem_of_cons in Hvalid as [->|Hvalid]; [by vm_compute; eexists|]).
    by apply elem_of_nil in Hvalid.
  - split; [by vm_compute; repeat constructor|].
    split; [by vm_compute; eexists|]. intros _. split; [done | by vm_compute].
Qed.

(** Run: a supervisor answer that names no declared node ends the pass. *)
Example supervisor_rejects_undeclared_name :
  @ReAct.run (Scripted.supervisor_says " weather_agent ") 25 ReAct.supervisor
    (Scripted.asked "What is the weather?")
    (@ReAct.Build_Store (Scripted.supervisor_says " weather_agent ") () [])
  = (ReAct.Finished,
     {| ReAct.messages := [ReAct.HumanMessage "What is the weather?"];
        ReAct.userInput := "What is the weather?";
        ReAct.nextAgent := "FINISH" |},
     @ReAct.Build_Store (Scripted.supervisor_says " weather_agent ") () []).
Proof. reflexivity. Qed.

(** C2, on the router graph. The personal-assistant node stores the model's
    trimmed answer as [currentAgent] without checking it, and the routing
    decision returns it as it is: when the answer is not a key of the table of
    conditional edges, the decision is that very string, there is no
    destination for it, and the pass stops there instead of ending at [END]. *)
Theorem unlisted_agent_name_routed_verbatim `{Externals}
    (state : GraphState) (s : Store) (latestMessage : Message)
    (response : string) (w : World) (limit : nat) :
  JS.last_of (of_role user (messages state)) = Some latestMessage →
  llm_invoke [ Agents.chat system Agents.router_instructions;
               Agents.chat user (content latestMessage) ] (world s)
  = (Some response, w) →
  Graph.conditionalEdges !! JS.trim response = None →
  ∃ reached s',
    Graph.run (S limit) Graph.PersonalAssistant state s
    = (Graph.UnknownDestination (JS.trim response), reached, s')
    ∧ currentAgent (agentState reached) = JS.trim response
    ∧ Graph.router reached = JS.trim response.
Proof.
  intros Hlast Hllm Hedge. eexists _, _.
  simpl. unfold Agents.personalAssistantAgent. rewrite Hlast.
  unfold try_catch, mbind, M_bind, bind. rewrite (llm_returns _ _ _ _ Hllm).
  simpl. unfold Graph.router at 1 2. simpl. rewrite Hedge.
  repeat split; reflexivity.
Qed.

Lemma unlisted_agent_name_routed_verbatim_witness :
  ∃ reached s',
    Graph.run 25 Graph.PersonalAssistant
      (Scripted.said "What is the weather?") (Scripted.store [Some "WeatherAgent"])
    = (Graph.UnknownDestination "WeatherAgent", reached, s')
    ∧ currentAgent (agentState reached) = "WeatherAgent"
    ∧ Graph.router reached = "WeatherAgent".
Proof.
  apply (unlisted_agent_name_routed_verbatim
           (Scripted.said "What is the weather?")
           (Scripted.store [Some "WeatherAgent"])
           (formatUserMessage "What is the weather?")
           "WeatherAgent"
           {| Scripted.replies := []; Scripted.clock := 1700000000000 |}
           24);
    reflexivity.
Defined.

(** ** The tool loop *)

Lemma for_each_total {S A B} (P : B → Prop) (f : A → Eff S B) (l : list A) :
  (∀ x s, ∃ y s', f x s = (Normal y, s') ∧ P y) →
  ∀ s, ∃ ys s',
    for_each f l s = (Normal ys, s') ∧ length ys = length l ∧ Forall P ys.
Proof.
  intros Hf. induction l as [|x l IH]; intros s; simpl.
  - by eexists _, _.
  - unfold bind at 1. destruct (Hf x s) as (y & s1 & -> & Hy).
    unfold bind at 1. destruct (IH s1) as (ys & s2 & -> & Hlen & Hys).
    eexists _, _. split; [reflexivity|]. split; [by simpl; rewrite Hlen|].
    by constructor.
Qed.

Lemma toolNode_answers `{ReAct.Runtime} tools state s text calls :
  last (ReAct.messages state) = Some (ReAct.AIMessage text calls) →
  ∃ outs s',
    ReAct.toolNode tools state s = (Normal (ReAct.only_messages outs), s')
    ∧ length outs = length calls
    ∧ Forall loop_message outs.
Proof.
  intros Hlast. unfold ReAct.toolNode. rewrite Hlast.
  set (answer := λ c, bind (ReAct.lift_world (tools c))
                        (λ out, ret (ReAct.ToolMessage out (ReAct.tool_call_id c)))).
  assert (Htotal : ∀ c s0, ∃ y s1, answer c s0 = (Normal y, s1) ∧ loop_message y).
  { intros c s0. unfold answer, bind, ReAct.lift_world.
    destruct (tools c (ReAct.world s0)) as [out w]. by eexists _, _. }
  destruct (for_each_total loop_message answer calls Htotal s)
    as (outs & s' & Hrun & Hlen & Houts).
  exists outs, s'. unfold bind at 1. by rewrite Hrun.
Qed.

Lemma agentNode_asks `{ReAct.Runtime} runnable state s :
  always_asks_for_tools runnable →
  ∃ text c calls s',
    bind (ReAct.call (runnable (ReAct.messages state)))
         (λ agentResponse,
            ret (ReAct.only_messages [ReAct.AIMessage agentResponse.1 agentResponse.2])) s
    = (Normal (ReAct.only_messages [ReAct.AIMessage text (c :: calls)]), s').
Proof.
  intros Hasks.
  destruct (Hasks (ReAct.messages state) (ReAct.world s)) as (text & c & calls & w' & Hcall).
  exists text, c, calls. eexists.
  unfold ReAct.call, ReAct.lift_world, bind. rewrite Hcall. reflexivity.
Qed.

(** The induction behind both loops, [tools] being the tool set of the
    loop. The worker's step ends on a message
    with tool calls, so the edge taken is the one to the tool node; the tool
    node answers every call and hands back to the worker. *)
Ltac tool_loop limit Hasks tools :=
  let IHagent := fresh "IHagent" in
  let IHtools := fresh "IHtools" in
  induction limit as [|limit [IHagent IHtools]];
  [ split; intros; eexists _, _, _, []; rewrite app_nil_r;
    repeat split; auto; constructor | ];
  split;
  [ intros state s;
    destruct (agentNode_asks _ state s Hasks) as (text & c & calls & s' & Hrun);
    simpl; try unfold ReAct.researchAgentNode; try unfold ReAct.gmeRedditAgentNode;
    rewrite Hrun;
    set (state' := ReAct.apply_update state _);
    assert (Hlast : last (ReAct.messages state')
                    = Some (ReAct.AIMessage text (c :: calls)))
      by (subst state'; simpl; apply last_snoc);
    unfold ReAct.toolsCondition; rewrite Hlast;
    lazymatch goal with
    | |- context [?table !! "tools"] =>
        let d := eval vm_compute in (table !! "tools") in
        change (table !! "tools") with d
    end;
    destruct (IHtools state' s' text c calls Hlast)
      as (n & reached & s'' & added & -> & Hn & Hmsgs & Hlen & Hadded);
    exists n, reached, s'', (ReAct.AIMessage text (c :: calls) :: added);
    rewrite Hmsgs; subst state'; simpl; rewrite <- app_assoc;
    repeat split; [done | lia | by constructor]
  | intros state s text c calls Hlast;
    destruct (toolNode_answers tools state s _ _ Hlast)
      as (outs & s' & Hrun & Hlen & Houts);
    simpl; rewrite Hrun;
    set (state' := ReAct.apply_update state _);
    destruct (IHagent state' s')
      as (n & reached & s'' & added & -> & Hn & Hmsgs & Hlen' & Hadded);
    exists n, reached, s'', (outs ++ added);
    rewrite Hmsgs; subst state'; simpl; rewrite <- app_assoc;
    repeat split;
    [ done | rewrite length_app, Hlen; simpl; lia | by apply Forall_app ] ].

Lemma research_loop `{ReAct.Runtime} (limit : nat) :
  always_asks_for_tools ReAct.researchAgentRunnable →
  (∀ state s,
     still_looping ReAct.research_agent ReAct.research_tool_node limit state
       (ReAct.run limit ReAct.research_agent state s))
  ∧ (∀ state s text c calls,
       last (ReAct.messages state) = Some (ReAct.AIMessage text (c :: calls)) →
       still_looping ReAct.research_agent ReAct.research_tool_node limit state
         (ReAct.run limit ReAct.research_tool_node state s)).
Proof.
  intros Hasks. tool_loop limit Hasks ReAct.researchTools.
Qed.

Lemma reddit_loop `{ReAct.Runtime} (limit : nat) :
  always_asks_for_tools ReAct.redditAgentRunnable →
  (∀ state s,
     still_looping ReAct.gme_reddit_agent ReAct.reddit_tool_node limit state
       (ReAct.run limit ReAct.gme_reddit_agent state s))
  ∧ (∀ state s text c calls,
       last (ReAct.messages state) = Some (ReAct.AIMessage text (c :: calls)) →
       still_looping ReAct.gme_reddit_agent ReAct.reddit_tool_node limit state
         (ReAct.run limit ReAct.reddit_tool_node state s)).
Proof.
  intros Hasks. tool_loop limit Hasks ReAct.redditTools.
Qed.

(** C3, as amended. The tool-loop workers set no bound of their own on the
    number of rounds: against a model that asks for a tool on every call, a
    pass that has entered the research worker (or the social-summary worker)
    keeps alternating between the worker and its tool node for as many node
    runs as the executor's step limit allows, whatever that limit is. Every
    node run appends at least one message, each a request for tools or the
    answer of a tool and never a reply; the pass never comes back to the
    supervisor or reaches [END], and it ends only when the step limit stops
    it. *)
Theorem tool_loop_has_no_cap `{ReAct.Runtime}
    (limit : nat) (state : ReAct.AgentState) (s : ReAct.Store) :
  (always_asks_for_tools ReAct.researchAgentRunnable →
   still_looping ReAct.research_agent ReAct.research_tool_node limit state
     (ReAct.run limit ReAct.research_agent state s))
  ∧ (always_asks_for_tools ReAct.redditAgentRunnable →
     still_looping ReAct.gme_reddit_agent ReAct.reddit_tool_node limit state
       (ReAct.run limit ReAct.gme_reddit_agent state s)).
Proof.
  split; intros Hasks.
  - by apply research_loop.
  - by apply reddit_loop.
Qed.

Lemma tool_loop_has_no_cap_witness :
  @still_looping Scripted.insatiable ReAct.research_agent ReAct.research_tool_node 100
    (Scripted.asked "What causes climate change?")
    (@ReAct.run Scripted.insatiable 100 ReAct.research_agent
       (Scripted.asked "What causes climate change?") Scripted.fresh)
  ∧ @still_looping Scripted.insatiable ReAct.gme_reddit_agent ReAct.reddit_tool_node 100
      (Scripted.asked "What is Reddit saying about GME?")
      (@ReAct.run Scripted.insatiable 100 ReAct.gme_reddit_agent
         (Scripted.asked "What is Reddit saying about GME?") Scripted.fresh).
Proof.
  split.
  - refine (proj1 (@tool_loop_has_no_cap Scripted.insatiable 100
                     (Scripted.asked "What causes climate change?") Scripted.fresh) _).
    intros msgs w. eexists _, _, _, _. reflexivity.
  - refine (proj2 (@tool_loop_has_no_cap Scripted.insatiable 100
                     (Scripted.asked "What is Reddit saying about GME?") Scripted.fresh) _).
    intros msgs w. eexists _, _, _, _. reflexivity.
Defined.

(** C3, as first stated, fails: the scripted model asks for one more search
    on every call, and after thirteen node runs of the research loop the
    model has been called seven times, the pass has not ended by itself (the
    tool node is next), and the messages hold the question and thirteen
    tool calls and tool answers, no reply among them. A whole turn under a
    step limit of 25 ends in the error line of the conversation loop, with
    the history holding the user's line only. *)
Lemma tool_loop_runs_past_six_rounds :
  @always_asks_for_tools Scripted.insatiable
    (@ReAct.researchAgentRunnable Scripted.insatiable)
  ∧ (∃ reached,
       @ReAct.run Scripted.insatiable 13 ReAct.research_agent
         (Scripted.asked "What causes climate change?") Scripted.fresh
       = (ReAct.RecursionLimit ReAct.research_tool_node, reached,
          @ReAct.Build_Store Scripted.insatiable 7%nat [])
       ∧ length (ReAct.messages reached) = 14%nat
       ∧ Forall (λ m, match m with
                      | ReAct.AIMessage text calls => text = EmptyString ∧ calls ≠ []
                      | ReAct.ToolMessage _ _ | ReAct.HumanMessage _ => True
                      | ReAct.SystemMessage _ => False
                      end) (ReAct.messages reached))
  ∧ (@ReAct.conversationTurn Scripted.insatiable 25 "What causes climate change?"
       [] Scripted.fresh).1
    = ("Assistant: Sorry, I encountered an error. Please try again.",
       [ReAct.HumanMessage "What causes climate change?"]).
Proof.
  split; [|split].
  - intros msgs w. by eexists _, _, _, _.
  - eexists. split; [vm_compute; reflexivity|]. split; [reflexivity|].
    repeat (constructor; [done|]). constructor.
  - vm_compute. reflexivity.
Qed.

(** ** The scenarios of the design, run on the scripted collaborators *)

(** A wish for dark mode is routed to the feature-capture worker; the queue
    gains one entry and the reply quotes its title. *)
Example scenario_feature_request :
  let '(halt, reached, s') :=
    Graph.invoke 25 (Scripted.said "I wish the app had dark mode")
      (Scripted.store [Some "FeatureRequestAgent"; Some Scripted.dark_mode_json;
                       Some "PersonalAssistant"]) in
  halt = Graph.Finished
  ∧ title <$> featureRequestQueue s' = ["Dark mode"]
  ∧ Exists (λ m, agentName m = Some "FeatureRequestAgent"
                 ∧ JS.includes (content m) "**Title**: Dark mode" = true)
           (messages reached).
Proof. vm_compute. repeat split. do 3 right. left. by split. Qed.

(** A question about climate change is routed to the research worker, whose
    lookup matches the phrase and cites the greenhouse snippet. *)
Example scenario_research :
  let '(halt, reached, _) :=
    Graph.invoke 25 (Scripted.said "What causes climate change?")
      (Scripted.store [Some "DeepResearchAgent"; Some "What causes climate change?";
                       Some "Mostly the burning of fossil fuels.";
                       Some "PersonalAssistant"]) in
  halt = Graph.Finished
  ∧ ∃ result, researchResults (agentState reached) = Some result
              ∧ Exists (λ source, JS.includes source "greenhouse" = true)
                       (sources result).
Proof. vm_compute. split; [done|]. eexists. split; [done|]. right. by left. Qed.

(** With no user message yet, the supervisor greets and the pass ends at
    once: no worker runs. *)
Example scenario_empty_start :
  Graph.invoke 25 createInitialState (Scripted.store [])
  = (Graph.Finished,
     {| messages := messages createInitialState ++ [
          assistant_says "PersonalAssistant"
            "Hello! I'm your personal assistant. How can I help you today?" ];
        agentState := agentState createInitialState |},
     Scripted.store []).
Proof. reflexivity. Qed.

(** * Further properties of the code *)

(** ** The feature-request queue, read with any count *)

(** X1. [getRecentFeatureRequests(count)] returns queue items only, and as
    many as the slice allows: [count] of them, or the whole queue when it has
    fewer, for a count that is not negative; for a negative count, all but
    the [-count] oldest, or none when the queue has no more than that. *)
Theorem recent_count_bounds (count : Z) (q : FeatureRequestQueue.Queue) :
  let recent := FeatureRequestQueue.getRecentFeatureRequests (Some count) q in
  let n := Z.of_nat (length q) in
  Z.of_nat (length recent) = (if count <? 0 then Z.max (n + count) 0 else Z.min count n)
  ∧ recent ⊆ q.
Proof.
  intros recent n. subst recent n.
  unfold FeatureRequestQueue.getRecentFeatureRequests, JS.slice0. simpl.
  set (sorted := JS.sort_by FeatureRequestQueue.by_timestamp_desc q).
  assert (Hperm : sorted ≡ₚ q) by apply sort_by_perm.
  assert (Hlen : length sorted = length q) by by rewrite Hperm.
  split.
  - destruct (Z.ltb_spec count 0); rewrite length_take, Hlen; lia.
  - intros x Hx. rewrite <- Hperm.
    destruct (count <? 0); by eapply subseteq_take.
Qed.

(** X2. Read with a count that covers the queue, the result is the whole
    queue in descending order of timestamp, and requests with the same
    timestamp come in the order in which they were appended. *)
Theorem recent_all_sorted_stable (count : Z) (q : FeatureRequestQueue.Queue) :
  Z.of_nat (length q) ≤ count →
  let recent := FeatureRequestQueue.getRecentFeatureRequests (Some count) q in
  recent ≡ₚ q
  ∧ StronglySorted (λ a b, timestamp b ≤ timestamp a) recent
  ∧ ∀ t, filter (λ r, timestamp r = t) recent = filter (λ r, timestamp r = t) q.
Proof.
  intros Hcount recent. subst recent.
  unfold FeatureRequestQueue.getRecentFeatureRequests, JS.slice0. simpl.
  change FeatureRequestQueue.by_timestamp_desc with (desc timestamp).
  destruct (Z.ltb_spec count 0); [lia|].
  rewrite take_ge by (rewrite sort_by_perm; lia).
  split; [apply sort_by_perm|]. split; [apply (sort_by_sorted timestamp)|].
  intros t. apply (sort_by_stable timestamp).
Qed.

Lemma recent_all_sorted_stable_witness :
  let request name t :=
    {| title := name; description := "d"; userGoal := "g"; exampleUseCase := "e";
       timestamp := t |} in
  let q := [request "first" 10; request "second" 20; request "third" 10] in
  let recent := FeatureRequestQueue.getRecentFeatureRequests (Some 5) q in
  recent ≡ₚ q
  ∧ StronglySorted (λ a b, timestamp b ≤ timestamp a) recent
  ∧ ∀ t, filter (λ r, timestamp r = t) recent = filter (λ r, timestamp r = t) q.
Proof.
  intros request q. apply (recent_all_sorted_stable 5 q). simpl. lia.
Defined.

(** ** Helpers *)

(** X3. [getRecentMessages(state, count)] returns the end of the history:
    the last [count] messages, or all of them when there are fewer, for a
    positive count. A count of zero returns the whole history, not the empty
    one, and a negative count drops the first [-count] messages. *)
Theorem getRecentMessages_suffix (state : GraphState) (count : Z) :
  let recent := getRecentMessages state (Some count) in
  let n := Z.of_nat (length (messages state)) in
  recent `suffix_of` messages state
  ∧ Z.of_nat (length recent) = (if 0 <? count then Z.min count n else Z.max (n + count) 0)
  ∧ getRecentMessages state (Some 0) = messages state.
Proof.
  intros recent n. subst recent n.
  unfold getRecentMessages, JS.slice_from. simpl.
  split; [|split].
  - destruct (- count <? 0); apply suffix_drop.
  - destruct (Z.ltb_spec (- count) 0), (Z.ltb_spec 0 count);
      rewrite length_drop; lia.
  - reflexivity.
Qed.

(** ** The social-feed tool *)

Lemma lower_idem c : JS.lower (JS.lower c) = JS.lower c.
Proof. by destruct c as [[] [] [] [] [] [] [] []]. Qed.

Lemma toLowerCase_idem s : JS.toLowerCase (JS.toLowerCase s) = JS.toLowerCase s.
Proof. induction s as [|c s IH]; simpl; [done|]. by rewrite lower_idem, IH. Qed.

Lemma toLowerCase_empty s : JS.toLowerCase s = EmptyString ↔ s = EmptyString.
Proof. by destruct s. Qed.

Lemma hours_ago_normal `{Externals} hours s :
  ∃ t s', RedditApi.hours_ago hours s = (Normal t, s').
Proof.
  unfold RedditApi.hours_ago, mbind, M_bind, bind, now, lift_world.
  destruct (Date_now (world s)) as [t w]. by eexists _, _.
Qed.

Lemma mockPosts_normal `{Externals} s :
  ∃ posts s', RedditApi.mockPosts s = (Normal posts, s') ∧ length posts = 5%nat.
Proof.
  unfold RedditApi.mockPosts, mbind, M_bind.
  unfold bind at 1. destruct (hours_ago_normal 5 s) as (t1 & s1 & ->).
  unfold bind at 1. destruct (hours_ago_normal 12 s1) as (t2 & s2 & ->).
  unfold bind at 1. destruct (hours_ago_normal 8 s2) as (t3 & s3 & ->).
  unfold bind at 1. destruct (hours_ago_normal 18 s3) as (t4 & s4 & ->).
  unfold bind at 1. destruct (hours_ago_normal 10 s4) as (t5 & s5 & ->).
  by eexists _, _.
Qed.

(** X4. [getMockRedditPosts] always answers, with posts taken from the five
    mock posts in their order. With an empty list, or a list whose first
    entry is the empty string (whatever follows it), it returns all five;
    otherwise it returns exactly the mock posts whose subreddit, in lower
    case, is the lower case of a listed name. *)
Theorem getMockRedditPosts_filter `{Externals} (subreddits : list string) (s : Store) :
  ∃ all posts s',
    RedditApi.mockPosts s = (Normal all, s')
    ∧ RedditApi.getMockRedditPosts subreddits s = (Normal posts, s')
    ∧ length all = 5%nat
    ∧ posts `sublist_of` all
    ∧ (head subreddits = None ∨ head subreddits = Some EmptyString → posts = all)
    ∧ (head subreddits ≠ None → head subreddits ≠ Some EmptyString →
       ∀ post, post ∈ posts
               ↔ post ∈ all
                 ∧ RedditApi.postSubreddit post ∈ JS.toLowerCase <$> subreddits).
Proof.
  destruct (mockPosts_normal s) as (all & s' & Hall & Hlen).
  exists all. unfold RedditApi.getMockRedditPosts, mbind, M_bind, bind. rewrite Hall.
  destruct subreddits as [|first rest].
  { eexists _, _. repeat split; try done. }
  destruct (decide (first ≠ EmptyString)) as [Hfirst|Hfirst].
  - eexists _, _. do 3 (split; [done|]). split; [apply sublist_filter|]. split.
    + intros [|]; simplify_eq/=.
    + intros _ _ post. rewrite list_elem_of_filter, elem_of_list_to_set. tauto.
  - apply dec_stable in Hfirst as ->.
    eexists _, _. repeat split; try done.
Qed.

(** X5. The subreddit names are compared without regard to case: two lists
    that agree once put in lower case get the same posts. *)
Theorem getMockRedditPosts_case_insensitive `{Externals}
    (subreddits1 subreddits2 : list string) (s : Store) :
  JS.toLowerCase <$> subreddits1 = JS.toLowerCase <$> subreddits2 →
  RedditApi.getMockRedditPosts subreddits1 s = RedditApi.getMockRedditPosts subreddits2 s.
Proof.
  intros Hsame. unfold RedditApi.getMockRedditPosts, mbind, M_bind, bind.
  destruct (RedditApi.mockPosts s) as [[posts|] s']; [|done].
  rewrite Hsame.
  destruct subreddits1 as [|first1 rest1], subreddits2 as [|first2 rest2];
    try discriminate; [done|].
  injection Hsame as Hfirst Hrest.
  destruct (decide (first1 ≠ EmptyString)) as [H1|H1],
           (decide (first2 ≠ EmptyString)) as [H2|H2]; try done.
  - apply dec_stable in H2 as ->. simpl in Hfirst.
    by apply (proj1 (toLowerCase_empty _)) in Hfirst.
  - apply dec_stable in H1 as ->. simpl in Hfirst. symmetry in Hfirst.
    by apply (proj1 (toLowerCase_empty _)) in Hfirst.
Qed.

Lemma getMockRedditPosts_case_insensitive_witness :
  RedditApi.getMockRedditPosts ["SuperStonk"; "GME"] (Scripted.store [])
  = RedditApi.getMockRedditPosts ["superstonk"; "gme"] (Scripted.store []).
Proof.
  apply (getMockRedditPosts_case_insensitive ["SuperStonk"; "GME"] ["superstonk"; "gme"]).
  reflexivity.
Defined.

(** ** The personal-assistant node and the passes of the router graph *)

(** X6. The personal-assistant node always returns, with one message of its
    own appended and [taskCompleted] false whatever it was before; it names
    itself as current agent when there is no user message (without calling
    the model) or when the model call fails, and the model's trimmed answer
    otherwise; the artifacts are untouched. So the routing decision after
    this node is always [currentAgent]: a completion flag set by a worker
    never reaches the router. *)
Theorem personalAssistant_decides `{Externals} (state : GraphState) (s : Store) :
  ∃ name line s',
    Routed state s name line s'
    ∧ Agents.personalAssistantAgent state s
      = (Normal {| messages := messages state ++ [assistant_says "PersonalAssistant" line];
                   agentState :=
                     with_taskCompleted false (with_currentAgent name (agentState state)) |},
         s')
    ∧ Graph.router
        (Graph.merge state
           {| messages := messages state ++ [assistant_says "PersonalAssistant" line];
              agentState :=
                with_taskCompleted false (with_currentAgent name (agentState state)) |})
      = name.
Proof. apply personalAssistantAgent_routes. Qed.

Lemma of_role_snoc r ms m :
  of_role r (ms ++ [m]) = of_role r ms ++ (if decide (role m = r) then [m] else []).
Proof.
  unfold of_role. rewrite filter_app. f_equal.
Qed.

Lemma edge_to_END key :
  Graph.conditionalEdges !! key = Some Graph.END → key = "PersonalAssistant".
Proof.
  unfold Graph.conditionalEdges. simpl. intros Hedge.
  apply lookup_insert_Some in Hedge as [[<- _]|[_ Hedge]]; [done|].
  repeat (apply lookup_insert_Some in Hedge as [[_ ?]|[_ Hedge]]; [done|]).
  by rewrite lookup_empty in Hedge.
Qed.

(** X7. A conversation without any user message is answered at once: the
    pass is one run of the personal-assistant node, which appends the
    greeting and names itself, the model is not called and the store is left
    as it was — whatever agent state the conversation came with. The pass
    finishes for every step limit of two or more; with a step limit of one
    the same node run is made and the executor then stops the pass by its
    limit. *)
Theorem empty_conversation_is_greeted `{Externals}
    (limit : nat) (state : GraphState) (s : Store) :
  of_role user (messages state) = [] →
  let greeted :=
    {| messages := messages state ++ [assistant_says "PersonalAssistant" greeting];
       agentState :=
         with_taskCompleted false
           (with_currentAgent "PersonalAssistant" (agentState state)) |} in
  Graph.invoke (S (S limit)) state s = (Graph.Finished, greeted, s)
  ∧ Graph.invoke 1 state s = (Graph.RecursionLimitAtEND, greeted, s).
Proof.
  intros Hnone greeted.
  assert (Hnode : Agents.personalAssistantAgent state s = (Normal greeted, s)).
  { unfold Agents.personalAssistantAgent. by rewrite Hnone. }
  assert (Hmerge : Graph.merge state greeted = greeted) by apply merge_appended.
  split.
  - unfold Graph.invoke.
    rewrite (supervisor_identifier_is_terminal limit state s greeted s Hnode);
      by rewrite Hmerge.
  - unfold Graph.invoke. simpl. by rewrite Hnode, Hmerge.
Qed.

Lemma empty_conversation_is_greeted_witness :
  Graph.invoke 25
    {| messages := messages createInitialState;
       agentState := with_taskCompleted true
                       (with_currentAgent "DeepResearchAgent" (agentState createInitialState)) |}
    (Scripted.store [Some "DeepResearchAgent"])
  = (Graph.Finished,
     {| messages := messages createInitialState
                    ++ [assistant_says "PersonalAssistant" greeting];
        agentState := agentState createInitialState |},
     Scripted.store [Some "DeepResearchAgent"])
  ∧ Graph.invoke 1
      {| messages := messages createInitialState;
         agentState := with_taskCompleted true
                         (with_currentAgent "DeepResearchAgent" (agentState createInitialState)) |}
      (Scripted.store [Some "DeepResearchAgent"])
    = (Graph.RecursionLimitAtEND,
       {| messages := messages createInitialState
                      ++ [assistant_says "PersonalAssistant" greeting];
          agentState := agentState createInitialState |},
       Scripted.store [Some "DeepResearchAgent"]).
Proof.
  apply (empty_conversation_is_greeted 23
           {| messages := messages createInitialState;
              agentState := with_taskCompleted true
                              (with_currentAgent "DeepResearchAgent"
                                 (agentState createInitialState)) |}
           (Scripted.store [Some "DeepResearchAgent"])).
  reflexivity.
Defined.

Lemma last_of_nil {A} (l : list A) : JS.last_of l = None → l = [].
Proof. unfold JS.last_of. apply last_None. Qed.

Lemma user_message_stays r ms m : of_role r ms ≠ [] → of_role r (ms ++ [m]) ≠ [].
Proof. rewrite of_role_snoc. by intros ? [? _]%app_eq_nil. Qed.

Lemma run_finished_reply `{Externals} limit n state s result s' :
  of_role user (messages state) ≠ [] →
  Graph.run limit n state s = (Graph.Finished, result, s') →
  ∃ line,
    JS.last_of (of_role assistant (messages result))
    = Some (assistant_says "PersonalAssistant" line)
    ∧ (line = default_line ∨ line = router_failure_line).
Proof.
  revert n state s. induction limit as [|limit IH]; intros n state s Huser Hrun;
    simpl in Hrun; [discriminate|].
  destruct (decide (n = Graph.PersonalAssistant)) as [->|Hworker].
  - destruct (personalAssistantAgent_routes state s)
      as (name & line & s1 & Hrouted & Hnode & Hroute).
    simpl in Hrun. rewrite Hnode, Hroute in Hrun.
    destruct (Graph.conditionalEdges !! name) as [[next|]|] eqn:Hedge;
      [ | | discriminate ].
    + apply IH in Hrun; [done|].
      rewrite merge_appended. simpl. by apply user_message_stays.
    + apply edge_to_END in Hedge as ->.
      destruct limit; [discriminate|].
      injection Hrun as <- <-. rewrite merge_appended. simpl.
      exists line. split.
      { rewrite of_role_snoc. simpl. unfold JS.last_of. apply last_snoc. }
      inversion Hrouted as [Hnone|latest response w Hlast Hllm Hname|latest w Hlast Hllm];
        subst.
      * by apply last_of_nil in Hnone.
      * left. by rewrite Hname.
      * by right.
  - destruct (node_appends n state s) as (out & s1 & msg & Hnode & Hout).
    rewrite Hnode in Hrun.
    assert (Hnext : Graph.run limit Graph.PersonalAssistant (Graph.merge state out) s1
                    = (Graph.Finished, result, s')) by by destruct n.
    apply IH in Hnext; [done|].
    simpl. rewrite Hout, messages_reducer_extends. by apply user_message_stays.
Qed.

(** X8. What [handler] returns to the caller is always a line of the
    personal assistant itself, the default line or its failure line, and
    never the text a worker wrote: a pass ends only right after the
    personal-assistant node, whose message is then the last assistant
    message. *)
Theorem handler_reply_is_the_routers `{Externals}
    (limit : nat) (userMessage : string) (s s' : Store) (reply : string) :
  Graph.handler limit userMessage s = (Some reply, s') →
  reply = default_line ∨ reply = router_failure_line.
Proof.
  unfold Graph.handler, Graph.invoke.
  destruct (Graph.run limit _ _ s) as [[halt result] s1] eqn:Hrun.
  destruct halt; try discriminate.
  apply run_finished_reply in Hrun as (line & Hlast & Hline); [|done].
  rewrite Hlast. simpl. by intros [= <- _].
Qed.

Lemma handler_reply_is_the_routers_witness :
  "How can I assist you today?" = default_line
  ∨ "How can I assist you today?" = router_failure_line.
Proof.
  apply (handler_reply_is_the_routers 25 "What causes climate change?"
           (Scripted.store [Some "DeepResearchAgent"; Some "What causes climate change?";
                            Some "Mostly the burning of fossil fuels.";
                            Some "PersonalAssistant"])
           (Scripted.store [])).
  reflexivity.
Defined.

(** X9. The router graph has no bound of its own either, and a worker's
    completion does not end the pass: when there is a user message and the
    model answers every routing prompt with the name of a worker, the pass
    goes from the personal assistant to a worker and back for as many node
    runs as the executor's step limit allows, and never ends at [END]. *)
Theorem router_graph_has_no_cap `{Externals}
    (limit : nat) (n : Graph.Node) (state : GraphState) (s : Store) :
  always_names_a_worker →
  of_role user (messages state) ≠ [] →
  ∃ next reached s',
    Graph.run limit n state s = (Graph.RecursionLimit next, reached, s').
Proof.
  intros Hmodel. revert n state s.
  induction limit as [|limit IH]; intros n state s Huser; simpl.
  { by eexists _, _, _. }
  destruct (decide (n = Graph.PersonalAssistant)) as [->|Hworker].
  - destruct (personalAssistantAgent_routes state s)
      as (name & line & s1 & Hrouted & Hnode & Hroute).
    simpl. rewrite Hnode, Hroute.
    assert (Hstays : of_role user
                       (messages (Graph.merge state
                          {| messages := messages state
                                         ++ [assistant_says "PersonalAssistant" line];
                             agentState := with_taskCompleted false
                                             (with_currentAgent name (agentState state)) |}))
                     ≠ []).
    { rewrite merge_appended. simpl. by apply user_message_stays. }
    inversion Hrouted as [Hnone|latest response w Hlast Hllm Hname|latest w Hlast Hllm];
      subst.
    + by apply last_of_nil in Hnone.
    + destruct (Hmodel (content latest) (world s)) as (r & w' & next & Hllm' & Hedge).
      rewrite Hllm in Hllm'. injection Hllm' as <- <-.
      rewrite Hedge. by apply IH.
    + destruct (Hmodel (content latest) (world s)) as (r & w' & next & Hllm' & Hedge).
      rewrite Hllm in Hllm'. discriminate.
  - destruct (node_appends n state s) as (out & s1 & msg & Hnode & Hout).
    rewrite Hnode.
    assert (Hstays : of_role user (messages (Graph.merge state out)) ≠ []).
    { simpl. rewrite Hout, messages_reducer_extends. by apply user_message_stays. }
    destruct (IH Graph.PersonalAssistant _ s1 Hstays) as (next & reached & s' & Hrun).
    exists next, reached, s'. by destruct n.
Qed.

Lemma router_graph_has_no_cap_witness :
  ∃ next reached s',
    @Graph.run insistent 1000 Graph.PersonalAssistant
      (Scripted.said "What causes climate change?")
      (@Build_Store insistent () [])
    = (Graph.RecursionLimit next, reached, s').
Proof.
  refine (@router_graph_has_no_cap insistent 1000 Graph.PersonalAssistant
            (Scripted.said "What causes climate change?")
            (@Build_Store insistent () []) _ _).
  - intros text w. exists "DeepResearchAgent", w, Graph.DeepResearchAgent.
    split; reflexivity.
  - discriminate.
Defined.

(** ** The queue and the agent state *)

Section QueueFrames.
Context `{Externals}.

Lemma keeps_ret {A} (a : A) : keeps_queue (ret a).
Proof. intros s c s' [= <- <-]. done. Qed.

Lemma keeps_or_throw {A} (o : option A) : keeps_queue (or_throw o).
Proof. destruct o; intros s c s' [= <- <-]; done. Qed.

Lemma keeps_lift_world {A} (op : World → A * World) : keeps_queue (lift_world op).
Proof.
  intros s c s'. unfold lift_world. destruct (op (world s)). by intros [= <- <-].
Qed.

Lemma keeps_bind {A B} (m : M A) (k : A → M B) :
  keeps_queue m → (∀ a, keeps_queue (k a)) → keeps_queue (bind m k).
Proof.
  intros Hm Hk s c s'. unfold bind.
  destruct (m s) as [[a|] s1] eqn:Hrun.
  - intros Hkrun. rewrite (Hk _ _ _ _ Hkrun). by eapply Hm.
  - intros [= <- <-]. by eapply Hm.
Qed.

Lemma keeps_llm prompt : keeps_queue (llm prompt).
Proof. apply keeps_bind; [apply keeps_lift_world | intros; apply keeps_or_throw]. Qed.

Lemma keeps_now : keeps_queue now.
Proof. apply keeps_lift_world. Qed.

Lemma keeps_hours_ago hours : keeps_queue (RedditApi.hours_ago hours).
Proof. apply keeps_bind; [apply keeps_now | intros; apply keeps_ret]. Qed.

Lemma keeps_fetchRedditPosts subreddits timeFrame :
  keeps_queue (RedditApi.fetchRedditPosts subreddits timeFrame).
Proof.
  unfold RedditApi.fetchRedditPosts, RedditApi.getMockRedditPosts.
  apply keeps_bind.
  - unfold RedditApi.mockPosts.
    repeat (apply keeps_bind; [apply keeps_hours_ago | intros]). apply keeps_ret.
  - intros posts. destruct (default _ subreddits); [apply keeps_ret|].
    case_decide; apply keeps_ret.
Qed.

Lemma logs_ret k state ms a :
  featureRequests a = featureRequests (agentState state) →
  logs k state (ret {| messages := ms; agentState := a |}).
Proof.
  intros Ha s c s' [= <- <-]. exists []. rewrite !app_nil_r. simpl.
  repeat split; [lia | done].
Qed.

Lemma logs_bind {A} k state (m : M A) (f : A → M AgentResponse) :
  keeps_queue m → (∀ a, logs k state (f a)) → logs k state (bind m f).
Proof.
  intros Hm Hf s c s'. unfold bind.
  destruct (m s) as [[a|] s1] eqn:Hrun.
  - intros Hfrun. destruct (Hf _ _ _ _ Hfrun) as (added & Hq & Hlen & Hc).
    exists added. by rewrite Hq, (Hm _ _ _ Hrun).
  - intros [= <- <-]. exists []. rewrite app_nil_r.
    repeat split; [by eapply Hm | simpl; lia].
Qed.

Lemma logs_try_catch k state (body handler : M AgentResponse) :
  logs k state body → logs k state handler → logs k state (try_catch body handler).
Proof.
  intros Hbody Hhandler s c s'. unfold try_catch.
  destruct (body s) as [[out|] s1] eqn:Hrun.
  - intros [= <- <-]. exact (Hbody _ _ _ Hrun).
  - intros Hcatch. destruct (Hbody _ _ _ Hrun) as (added & Hq & _ & ->).
    rewrite app_nil_r in Hq.
    destruct (Hhandler _ _ _ Hcatch) as (added & Hq' & Hlen & Hc).
    exists added. by rewrite Hq', Hq.
Qed.

Lemma logs_more k state m : logs 0 state m → logs k state m.
Proof.
  intros Hm s c s' Hrun. destruct (Hm _ _ _ Hrun) as (added & ? & ? & ?).
  exists added. repeat split; [done | lia | done].
Qed.

Lemma personalAssistantAgent_logs state :
  logs 0 state (Agents.personalAssistantAgent state).
Proof.
  unfold Agents.personalAssistantAgent.
  destruct (JS.last_of _); [|by apply logs_ret].
  apply logs_try_catch; [|by apply logs_ret].
  apply logs_bind; [apply keeps_llm|]. intros response. by apply logs_ret.
Qed.

Lemma deepResearchAgent_logs state :
  logs 0 state (Agents.deepResearchAgent state).
Proof.
  unfold Agents.deepResearchAgent, Agents.deepResearch_attempt.
  apply logs_try_catch; [|by apply logs_ret].
  apply logs_bind; [apply keeps_llm|]. intros questionResponse.
  apply logs_bind; [apply keeps_llm|]. intros synthesisResponse.
  by apply logs_ret.
Qed.

Lemma gmeRedditSummaryAgent_logs state :
  logs 0 state (Agents.gmeRedditSummaryAgent state).
Proof.
  unfold Agents.gmeRedditSummaryAgent, Agents.gmeRedditSummary_attempt.
  apply logs_try_catch; [|by apply logs_ret].
  apply logs_bind; [apply keeps_llm|]. intros focusResponse.
  apply logs_bind; [apply keeps_or_throw|]. intros focus.
  apply logs_bind; [apply keeps_fetchRedditPosts|]. intros redditPosts.
  apply logs_bind; [apply keeps_llm|]. intros analysisResponse.
  apply logs_bind; [apply keeps_or_throw|]. intros analysis.
  by apply logs_ret.
Qed.

Lemma featureRequestAgent_logs state :
  logs 1 state (Agents.featureRequestAgent state).
Proof.
  unfold Agents.featureRequestAgent.
  apply logs_try_catch; [|by apply logs_ret].
  apply logs_bind; [apply keeps_llm|]. intros response.
  apply logs_try_catch; [|by apply logs_ret].
  unfold Agents.featureRequest_parsed.
  apply logs_bind; [apply keeps_or_throw|]. intros [[[t d] g] e].
  apply logs_bind; [apply keeps_now|]. intros created.
  intros s c s' [= <- <-]. by exists [ {| title := t; description := d; userGoal := g;
                                          exampleUseCase := e; timestamp := created |} ].
Qed.

Lemma node_logs n state :
  logs (if decide (n = Graph.FeatureRequestAgent) then 1 else 0) state
       (Graph.node n state).
Proof.
  destruct n; simpl;
    auto using personalAssistantAgent_logs, featureRequestAgent_logs,
      deepResearchAgent_logs, gmeRedditSummaryAgent_logs.
Qed.

End QueueFrames.

(** X10. The queue and the feature requests of the agent state are written
    together. A node run appends the same requests to both: one at most in
    the feature-capture worker and none in any other node; and over a pass
    of the executor, however it ends, the two have grown by the same
    requests in the same order. *)
Theorem queue_and_state_log_together `{Externals} :
  (∀ n state s, ∃ out s' added,
      Graph.node n state s = (Normal out, s')
      ∧ featureRequestQueue s' = featureRequestQueue s ++ added
      ∧ featureRequests (agentState out) = featureRequests (agentState state) ++ added
      ∧ (length added ≤ if decide (n = Graph.FeatureRequestAgent) then 1 else 0)%nat)
  ∧ (∀ limit n state s, ∃ added,
       featureRequestQueue (Graph.run limit n state s).2
       = featureRequestQueue s ++ added
       ∧ featureRequests (agentState (Graph.run limit n state s).1.2)
         = featureRequests (agentState state) ++ added).
Proof.
  assert (Hnode : ∀ n state s, ∃ out s' added,
      Graph.node n state s = (Normal out, s')
      ∧ featureRequestQueue s' = featureRequestQueue s ++ added
      ∧ featureRequests (agentState out) = featureRequests (agentState state) ++ added
      ∧ (length added ≤ if decide (n = Graph.FeatureRequestAgent) then 1 else 0)%nat).
  { intros n state s.
    destruct (node_appends n state s) as (out & s' & msg & Hrun & _).
    destruct (node_logs n state _ _ _ Hrun) as (added & Hq & Hlen & Hout).
    by exists out, s', added. }
  split; [exact Hnode|].
  induction limit as [|limit IH]; intros n state s; simpl.
  { exists []. by rewrite !app_nil_r. }
  destruct (Hnode n state s) as (out & s1 & added & -> & Hq & Hout & _).
  assert (Hcont : ∀ next, ∃ added',
             featureRequestQueue (Graph.run limit next (Graph.merge state out) s1).2
             = featureRequestQueue s ++ added'
             ∧ featureRequests
                 (agentState (Graph.run limit next (Graph.merge state out) s1).1.2)
               = featureRequests (agentState state) ++ added').
  { intros next. destruct (IH next (Graph.merge state out) s1) as (more & Hq' & Hout').
    exists (added ++ more). rewrite Hq', Hout', Hq. simpl.
    unfold Graph.agentState_reducer. rewrite Hout. by rewrite !app_assoc. }
  destruct n; try apply Hcont.
  destruct (Graph.conditionalEdges !! _) as [[next|]|]; try apply Hcont;
    clear IH Hcont; destruct limit; by exists added.
Qed.

(** ** The feature-capture worker, the other two paths *)

Lemma prefix_app t post : String.prefix t (t +:+ post) = true.
Proof.
  induction t as [|c t IH]; simpl; [by destruct post|].
  by destruct (ascii_dec c c).
Qed.

Lemma includes_unfold s t :
  JS.includes s t
  = String.prefix t s
    || match s with String _ s' => JS.includes s' t | EmptyString => false end.
Proof. by destruct s. Qed.

Lemma includes_here t post : JS.includes (t +:+ post) t = true.
Proof. by rewrite includes_unfold, prefix_app. Qed.

Lemma includes_later pre x t : JS.includes x t = true → JS.includes (pre +:+ x) t = true.
Proof.
  intros Hx. induction pre as [|c pre IH]; [done|].
  change (String c pre +:+ x) with (String c (pre +:+ x)).
  rewrite includes_unfold, IH. apply orb_true_r.
Qed.

(** X11. When the model's answer decodes to a request, the feature-capture
    worker stamps it with the clock, appends it to the queue and to the
    feature requests of the agent state, hands the conversation back
    ([taskCompleted] true, [currentAgent] the personal assistant), and
    replies with a text that quotes the title, the description, the goal and
    the use case of the request. *)
Theorem featureRequest_logged `{Externals}
    (state : GraphState) (s : Store) (response : string) (w w' : World)
    (t d g e : string) (created : Z) :
  llm_invoke (Agents.feature_prompt state) (world s) = (Some response, w) →
  decodeFeatureRequest response = Some (t, d, g, e) →
  Date_now w = (created, w') →
  let request :=
    {| title := t; description := d; userGoal := g; exampleUseCase := e;
       timestamp := created |} in
  ∃ reply,
    Agents.featureRequestAgent state s
    = (Normal {| messages := messages state ++ [assistant_says "FeatureRequestAgent" reply];
                 agentState :=
                   with_currentAgent "PersonalAssistant"
                     (with_taskCompleted true
                        (with_featureRequests
                           (featureRequests (agentState state) ++ [request])
                           (agentState state))) |},
       {| world := w'; featureRequestQueue := featureRequestQueue s ++ [request] |})
    ∧ Forall (λ field, JS.includes reply field = true) [t; d; g; e].
Proof.
  intros Hllm Hdecode Hnow request. exists (Agents.feature_reply request). split.
  - unfold Agents.featureRequestAgent, try_catch at 1.
    unfold mbind, M_bind, bind at 1. rewrite (llm_returns _ _ _ _ Hllm).
    unfold try_catch, Agents.featureRequest_parsed, mbind, M_bind, bind.
    rewrite Hdecode. simpl. unfold now, lift_world. simpl. rewrite Hnow. reflexivity.
  - unfold Agents.feature_reply, request.
    cbn [title description userGoal exampleUseCase].
    repeat (constructor;
            [repeat first [apply includes_here | apply includes_later]|]).
    constructor.
Qed.

Lemma featureRequest_logged_witness :
  ∃ reply,
    Agents.featureRequestAgent
      (Scripted.handed_to "FeatureRequestAgent" "I wish the app had dark mode")
      (Scripted.store [Some Scripted.dark_mode_json])
    = (Normal
         {| messages :=
              messages (Scripted.handed_to "FeatureRequestAgent" "I wish the app had dark mode")
              ++ [assistant_says "FeatureRequestAgent" reply];
            agentState :=
              with_featureRequests
                [ {| title := "Dark mode";
                     description := "A dark colour scheme for the app";
                     userGoal := "Read at night";
                     exampleUseCase := "Switching the theme in settings";
                     timestamp := 1700000000000 |} ]
                (with_taskCompleted true (agentState createInitialState)) |},
       {| world := {| Scripted.replies := []; Scripted.clock := 1700000000001 |};
          featureRequestQueue :=
            [ {| title := "Dark mode";
                 description := "A dark colour scheme for the app";
                 userGoal := "Read at night";
                 exampleUseCase := "Switching the theme in settings";
                 timestamp := 1700000000000 |} ] |})
    ∧ Forall (λ field, JS.includes reply field = true)
             ["Dark mode"; "A dark colour scheme for the app"; "Read at night";
              "Switching the theme in settings"].
Proof.
  apply (featureRequest_logged
           (Scripted.handed_to "FeatureRequestAgent" "I wish the app had dark mode")
           (Scripted.store [Some Scripted.dark_mode_json])
           Scripted.dark_mode_json
           {| Scripted.replies := []; Scripted.clock := 1700000000000 |}
           {| Scripted.replies := []; Scripted.clock := 1700000000001 |}
           "Dark mode" "A dark colour scheme for the app" "Read at night"
           "Switching the theme in settings" 1700000000000);
    reflexivity.
Defined.

(** X12. When the call of the model itself fails, the feature-capture worker
    returns its failure line, with [taskCompleted] false and the rest of the
    agent state as it was, and the queue is the one it started with. *)
Theorem featureRequest_model_failure `{Externals}
    (state : GraphState) (s : Store) (w : World) :
  llm_invoke (Agents.feature_prompt state) (world s) = (None, w) →
  ∃ out,
    Agents.featureRequestAgent state s
    = (Normal out, {| world := w; featureRequestQueue := featureRequestQueue s |})
    ∧ messages out = messages state ++ [Agents.feature_failure]
    ∧ taskCompleted (agentState out) = false
    ∧ same_but_taskCompleted (agentState state) (agentState out).
Proof.
  intros Hllm. eexists. split.
  - unfold Agents.featureRequestAgent, try_catch at 1.
    unfold mbind, M_bind, bind at 1. rewrite (llm_fails _ _ _ Hllm). reflexivity.
  - by repeat split.
Qed.

Lemma featureRequest_model_failure_witness :
  ∃ out,
    Agents.featureRequestAgent
      (Scripted.handed_to "FeatureRequestAgent" "I wish the app had dark mode")
      (Scripted.store [None])
    = (Normal out, Scripted.store [])
    ∧ messages out
      = messages (Scripted.handed_to "FeatureRequestAgent" "I wish the app had dark mode")
        ++ [Agents.feature_failure]
    ∧ taskCompleted (agentState out) = false
    ∧ same_but_taskCompleted
        (agentState (Scripted.handed_to "FeatureRequestAgent" "I wish the app had dark mode"))
        (agentState out).
Proof.
  apply (featureRequest_model_failure
           (Scripted.handed_to "FeatureRequestAgent" "I wish the app had dark mode")
           (Scripted.store [None])
           {| Scripted.replies := []; Scripted.clock := 1700000000000 |}).
  reflexivity.
Defined.

(** ** Keywords and what the research lookup can return *)

Lemma string_app_assoc a b c : (a +:+ b) +:+ c = a +:+ b +:+ c.
Proof.
  induction a as [|x a IH]; [done|].
  change ((String x a +:+ b) +:+ c) with (String x ((a +:+ b) +:+ c)).
  by rewrite IH.
Qed.

Lemma string_app_empty a : a +:+ EmptyString = a.
Proof.
  induction a as [|x a IH]; [done|].
  change (String x a +:+ EmptyString) with (String x (a +:+ EmptyString)).
  by rewrite IH.
Qed.

Lemma rev_app_append a b s : String.rev_app a b +:+ s = String.rev_app a (b +:+ s).
Proof. revert b. induction a as [|x a IH]; intros b; simpl; [done|]. by rewrite IH. Qed.

Lemma rev_push c cur s : String.rev (String c cur) +:+ s = String.rev cur +:+ String c s.
Proof. unfold String.rev. simpl. by rewrite !rev_app_append. Qed.

Lemma includes_within w s : within w s → JS.includes s w = true.
Proof. intros (pre & post & ->). apply includes_later, includes_here. Qed.

Lemma within_later c w s : within w s → within w (String c s).
Proof. intros (pre & post & ->). by exists (String c pre), post. Qed.

Lemma within_after pre w s : within w s → within w (pre +:+ s).
Proof.
  intros (pre' & post & ->). exists (pre +:+ pre'), post.
  by rewrite string_app_assoc.
Qed.

Lemma split_ws_go_within s cur in_run w :
  (in_run = true → cur = EmptyString) →
  w ∈ JS.split_ws_go cur in_run s → within w (String.rev cur +:+ s).
Proof.
  revert cur in_run. induction s as [|c s IH]; intros cur in_run Hrun; simpl.
  - intros ->%list_elem_of_singleton. exists EmptyString, EmptyString.
    by rewrite !string_app_empty.
  - destruct (Ascii.is_space c).
    + destruct in_run.
      * rewrite (Hrun eq_refl). intros Hw%IH; [|done]. by apply within_later.
      * intros [->|Hw]%elem_of_cons.
        { by exists EmptyString, (String c s). }
        apply IH in Hw; [|done]. by apply within_after, within_later.
    + intros Hw%IH; [|done]. by rewrite rev_push in Hw.
Qed.

Lemma split_ws_within s w : w ∈ JS.split_ws s → within w s.
Proof. intros Hw. by apply split_ws_go_within in Hw. Qed.

Lemma toLowerCase_app a b :
  JS.toLowerCase (a +:+ b) = JS.toLowerCase a +:+ JS.toLowerCase b.
Proof.
  induction a as [|x a IH]; [done|].
  change (String x a +:+ b) with (String x (a +:+ b)). simpl.
  rewrite IH. reflexivity.
Qed.

Lemma within_lower w s : within w s → within (JS.toLowerCase w) (JS.toLowerCase s).
Proof.
  intros (pre & post & ->). exists (JS.toLowerCase pre), (JS.toLowerCase post).
  by rewrite !toLowerCase_app.
Qed.

Lemma cleaned_is_lower question :
  JS.toLowerCase (JS.strip_punctuation (JS.toLowerCase question))
  = JS.strip_punctuation (JS.toLowerCase question).
Proof.
  induction question as [|c q IH]; simpl; [done|].
  destruct (JS.is_word (JS.lower c) || Ascii.is_space (JS.lower c)); [|done].
  simpl. by rewrite lower_idem, IH.
Qed.

(** The word-frequency object: its property names stay distinct, and they
    are words that were counted. *)
Lemma bump_existing_Some word wf wf' :
  ResearchTools.bump_existing word wf = Some wf' → wf'.*1 = wf.*1.
Proof.
  revert wf'. induction wf as [|[w v] wf IH]; intros wf'; simpl; [done|].
  case_decide; [by intros [= <-]|].
  destruct (ResearchTools.bump_existing word wf) as [r|]; [|done].
  intros [= <-]. rewrite !fmap_cons. f_equal. by apply IH.
Qed.

Lemma bump_existing_None word wf :
  ResearchTools.bump_existing word wf = None → word ∉ wf.*1.
Proof.
  induction wf as [|[w v] wf IH]; simpl; [intros _; apply not_elem_of_nil|].
  case_decide; [done|].
  destruct (ResearchTools.bump_existing word wf); [done|].
  intros _ [->|Hin]%elem_of_cons; [done|]. by apply IH.
Qed.

Lemma bump_names wf word :
  NoDup wf.*1 →
  NoDup (ResearchTools.bump wf word).*1 ∧ (ResearchTools.bump wf word).*1 ⊆ word :: wf.*1.
Proof.
  intros Hwf. unfold ResearchTools.bump.
  assert (Hkept : wf.*1 ⊆ word :: wf.*1).
  { intros x Hx. apply elem_of_cons. by right. }
  case_decide; [done|].
  destruct (ResearchTools.bump_existing word wf) as [wf'|] eqn:Hbump.
  - by rewrite (bump_existing_Some _ _ _ Hbump).
  - apply bump_existing_None in Hbump.
    rewrite fmap_app. simpl. split; last first.
    { intros x [Hx|Hx%list_elem_of_singleton]%elem_of_app; apply elem_of_cons;
        [by right | by left]. }
    apply NoDup_app. split; [done|]. split; [|apply NoDup_singleton].
    intros x Hx ->%list_elem_of_singleton. done.
Qed.

Lemma foldl_bump_names words wf :
  NoDup wf.*1 →
  NoDup (foldl ResearchTools.bump wf words).*1
  ∧ (foldl ResearchTools.bump wf words).*1 ⊆ words ++ wf.*1.
Proof.
  revert wf. induction words as [|word words IH]; intros wf Hwf; simpl; [done|].
  destruct (bump_names wf word Hwf) as [Hnodup Hsub].
  destruct (IH _ Hnodup) as [Hnodup' Hsub']. split; [done|].
  intros x Hx. apply Hsub', elem_of_app in Hx as [Hx|Hx]; apply elem_of_cons.
  - right. apply elem_of_app. by left.
  - apply Hsub, elem_of_cons in Hx as [->|Hx]; [by left|].
    right. apply elem_of_app. by right.
Qed.

Lemma Object_entries_perm wf : ResearchTools.Object_entries wf ≡ₚ wf.
Proof.
  unfold ResearchTools.Object_entries. rewrite sort_by_perm.
  apply filter_app_complement.
Qed.

(** X13. [extractKeywords] returns at most three keywords, all different.
    Each of them is one of the important phrases, or a word of the cleaned
    question (lower case, punctuation removed, split at white space) that is
    not a stop word and has more than two characters. *)
Theorem extractKeywords_sound (question : string) :
  let keywords := ResearchTools.extractKeywords question in
  let cleaned := JS.strip_punctuation (JS.toLowerCase question) in
  (length keywords ≤ 3)%nat
  ∧ NoDup keywords
  ∧ ∀ keyword, keyword ∈ keywords →
      keyword ∈ ResearchTools.importantPhrases
      ∨ (keyword ∈ JS.split_ws cleaned
         ∧ (keyword ∉ ResearchTools.stopWords)
         ∧ (2 < String.length keyword)%nat).
Proof.
  intros keywords cleaned. subst keywords. unfold ResearchTools.extractKeywords.
  fold cleaned.
  destruct (filter _ ResearchTools.importantPhrases) as [|phrase rest] eqn:Hphrases.
  - set (words := filter _ (JS.split_ws cleaned)).
    destruct (foldl_bump_names words [] (NoDup_nil_2)) as [Hnodup Hsub].
    set (entries := JS.sort_by _ _).
    assert (Hperm : entries.*1 ≡ₚ (foldl ResearchTools.bump [] words).*1).
    { unfold entries. by rewrite sort_by_perm, Object_entries_perm. }
    assert (Htake : (JS.slice0 3 entries).*1 `sublist_of` entries.*1).
    { unfold JS.slice0. simpl. apply fmap_sublist, sublist_take. }
    split; [|split].
    + unfold JS.slice0. simpl. rewrite length_fmap, length_take. lia.
    + eapply sublist_NoDup; [|exact Htake]. by rewrite Hperm.
    + intros keyword Hin. right.
      eapply sublist_subseteq in Hin; [|exact Htake].
      rewrite Hperm in Hin. apply Hsub in Hin. rewrite app_nil_r in Hin.
      unfold words in Hin. apply list_elem_of_filter in Hin as [[? ?] ?]. done.
  - split; [simpl; lia|]. split; [apply NoDup_singleton|].
    intros keyword ->%list_elem_of_singleton. left.
    assert (Hin : phrase ∈ filter (λ phrase, JS.includes cleaned phrase = true)
                           ResearchTools.importantPhrases)
      by (rewrite Hphrases; left).
    by apply list_elem_of_filter in Hin as [_ ?].
Qed.

Lemma knowledgeBase_keys key entries :
  ResearchTools.knowledgeBase !! key = Some entries →
  key ∈ ResearchTools.importantPhrases ∧ length entries = 3%nat.
Proof.
  unfold ResearchTools.knowledgeBase. simpl. intros Hkey.
  repeat (apply lookup_insert_Some in Hkey as [[<- <-]|[_ Hkey]];
          [by split; [set_solver|]|]).
  by rewrite lookup_empty in Hkey.
Qed.

Lemma importantPhrases_lower phrase :
  phrase ∈ ResearchTools.importantPhrases → JS.toLowerCase phrase = phrase.
Proof.
  unfold ResearchTools.importantPhrases. intros Hin.
  repeat (apply elem_of_cons in Hin as [->|Hin]; [done|]).
  by apply elem_of_nil in Hin.
Qed.

(** The two ways through [extractKeywords]: the first important phrase
    that occurs in the cleaned question, alone; or, when none occurs, words
    of the cleaned question. *)
Lemma extractKeywords_paths question :
  let cleaned := JS.strip_punctuation (JS.toLowerCase question) in
  (∃ phrase, ResearchTools.extractKeywords question = [phrase]
             ∧ phrase ∈ ResearchTools.importantPhrases
             ∧ JS.includes cleaned phrase = true)
  ∨ (Forall (λ phrase, JS.includes cleaned phrase ≠ true) ResearchTools.importantPhrases
     ∧ ResearchTools.extractKeywords question ⊆ JS.split_ws cleaned).
Proof.
  intros cleaned. unfold ResearchTools.extractKeywords. fold cleaned.
  destruct (filter _ ResearchTools.importantPhrases) as [|phrase rest] eqn:Hphrases.
  - right. split.
    { apply Forall_forall. intros phrase Hin Hincl.
      assert (Hf : phrase ∈ filter (λ phrase, JS.includes cleaned phrase = true)
                              ResearchTools.importantPhrases)
        by by apply list_elem_of_filter.
      rewrite Hphrases in Hf. by apply elem_of_nil in Hf. }
    set (words := filter _ (JS.split_ws cleaned)).
    destruct (foldl_bump_names words [] (NoDup_nil_2)) as [_ Hsub].
    intros keyword Hin. unfold JS.slice0 in Hin. simpl in Hin.
    apply list_elem_of_fmap in Hin as ([name value] & -> & Hin).
    apply subseteq_take in Hin. rewrite sort_by_perm, Object_entries_perm in Hin.
    assert (Hname : name ∈ (foldl ResearchTools.bump [] words).*1).
    { apply list_elem_of_fmap. by exists (name, value). }
    apply Hsub in Hname. rewrite app_nil_r in Hname.
    unfold words in Hname. by apply list_elem_of_filter in Hname as [_ ?].
  - left. exists phrase.
    assert (Hin : phrase ∈ filter (λ phrase, JS.includes cleaned phrase = true)
                           ResearchTools.importantPhrases)
      by (rewrite Hphrases; left).
    by apply list_elem_of_filter in Hin as [? ?].
Qed.

Lemma performResearch_paths (question : string) :
  let result := ResearchTools.performResearch question in
  result = ResearchTools.generic_pair
  ∨ (∃ keyword, keyword ∈ ResearchTools.extractKeywords question
                ∧ result = ResearchTools.external_pair keyword)
  ∨ (∃ phrase entries,
       ResearchTools.extractKeywords question = [phrase]
       ∧ phrase ∈ ResearchTools.importantPhrases
       ∧ JS.includes (JS.strip_punctuation (JS.toLowerCase question)) phrase = true
       ∧ ResearchTools.knowledgeBase !! phrase = Some entries
       ∧ result = ResearchTools.internal <$> entries).
Proof.
  intros result. subst result. unfold ResearchTools.performResearch.
  destruct (extractKeywords_paths question)
    as [(phrase & -> & Hphrase & Hincl)|[Hnone Hwords]].
  - simpl. rewrite (importantPhrases_lower _ Hphrase).
    destruct (ResearchTools.knowledgeBase !! phrase) as [entries|] eqn:Hkey.
    + right. right. exists phrase, entries. repeat split; try done.
      rewrite app_nil_r.
      destruct entries; [by apply knowledgeBase_entries_nonempty in Hkey|done].
    + right. left. exists phrase. split; [left|done].
  - assert (Hhits : ResearchTools.knowledge_hits (ResearchTools.extractKeywords question)
                    = []).
    { apply knowledge_hits_nil, Forall_forall. intros keyword Hin.
      destruct (ResearchTools.knowledgeBase !! JS.toLowerCase keyword)
        as [entries|] eqn:Hkey; [exfalso|done].
      apply knowledgeBase_keys in Hkey as [Hphrase _].
      eapply Forall_forall in Hnone; [|exact Hphrase]. apply Hnone.
      apply includes_within. rewrite <- cleaned_is_lower.
      by apply within_lower, split_ws_within, Hwords. }
    rewrite Hhits.
    destruct (ResearchTools.extractKeywords question) as [|keyword0 rest].
    + by left.
    + right. left. exists keyword0. split; [left|done].
Qed.

Lemma performResearch_length (question : string) :
  length (ResearchTools.performResearch question) = 2%nat
  ∨ length (ResearchTools.performResearch question) = 3%nat.
Proof.
  destruct (performResearch_paths question)
    as [->|[(keyword & _ & ->)|(phrase & entries & _ & _ & _ & Hkey & ->)]].
  - by left.
  - by left.
  - right. rewrite length_fmap. by apply knowledgeBase_keys in Hkey as [_ ?].
Qed.

(** X14. The research lookup returns one of three things only: the generic
    pair; the pair of "[External API]" snippets about one of the keywords;
    or the three knowledge-base snippets of a single topic. The last happens
    only when the keyword is an important phrase that occurs in the question
    and is a key of the knowledge base: a word of the question alone never
    reaches the knowledge base. So the result holds two or three snippets,
    never none. *)
Theorem performResearch_shape (question : string) :
  let result := ResearchTools.performResearch question in
  (result = ResearchTools.generic_pair
   ∨ (∃ keyword, keyword ∈ ResearchTools.extractKeywords question
                 ∧ result = ResearchTools.external_pair keyword)
   ∨ (∃ phrase entries,
        ResearchTools.extractKeywords question = [phrase]
        ∧ phrase ∈ ResearchTools.importantPhrases
        ∧ JS.includes (JS.strip_punctuation (JS.toLowerCase question)) phrase = true
        ∧ ResearchTools.knowledgeBase !! phrase = Some entries
        ∧ result = ResearchTools.internal <$> entries))
  ∧ (length result = 2%nat ∨ length result = 3%nat).
Proof.
  intros result. split.
  - apply performResearch_paths.
  - apply performResearch_length.
Qed.

(** ** The ReAct script *)

Lemma supervisorNode_validates_witness :
  ∃ name s',
    @ReAct.supervisorNode (Scripted.supervisor_says " weather_agent ")
      (Scripted.asked "What is the weather?")
      (@ReAct.Build_Store (Scripted.supervisor_says " weather_agent ") () [])
    = (Normal (ReAct.only_nextAgent name), s')
    ∧ name ∈ ReAct.validNodes
    ∧ is_Some (ReAct.supervisorEdges !! name)
    ∧ (JS.trim " weather_agent " ∉ ReAct.validNodes →
       name = "FINISH" ∧ ReAct.supervisorEdges !! name = Some ReAct.END).
Proof.
  apply (@supervisorNode_validates (Scripted.supervisor_says " weather_agent ")
           (Scripted.asked "What is the weather?")
           (@ReAct.Build_Store (Scripted.supervisor_says " weather_agent ") () [])
           " weather_agent " ()).
  reflexivity.
Defined.

Lemma worker_entered_as_current_witness :
  taskCompleted (agentState (Scripted.handed_to "DeepResearchAgent" "Why is the sky blue?"))
  = false
  ∧ currentAgent (agentState (Scripted.handed_to "DeepResearchAgent" "Why is the sky blue?"))
    = Graph.name Graph.DeepResearchAgent
  ∧ Graph.DeepResearchAgent ≠ Graph.PersonalAssistant.
Proof.
  apply (worker_entered_as_current
           (Scripted.handed_to "DeepResearchAgent" "Why is the sky blue?")
           Graph.DeepResearchAgent).
  reflexivity.
Defined.

Lemma call_normal `{ReAct.Runtime} {A} (op : ReAct.World → option A * ReAct.World)
    s a s' :
  ReAct.call op s = (Normal a, s') →
  ReAct.featureRequestQueue s' = ReAct.featureRequestQueue s.
Proof.
  unfold ReAct.call, bind, ReAct.lift_world.
  destruct (op (ReAct.world s)) as [[x|] w]; simpl; by intros [= <- <-].
Qed.

Lemma supervisor_next_defined `{ReAct.Runtime} state s u s' :
  ReAct.supervisorNode state s = (Normal u, s') →
  ∃ d, ReAct.next ReAct.supervisor (ReAct.apply_update state u) = inr d.
Proof.
  unfold ReAct.supervisorNode. intros Hrun.
  apply bind_normal in Hrun as (response & s1 & _ & Hret).
  apply ret_normal in Hret as ->. simpl.
  unfold ReAct.validated. case_bool_decide as Hvalid; [|by eexists].
  unfold ReAct.validNodes in Hvalid.
  repeat (apply elem_of_cons in Hvalid as [->|Hvalid]; [by eexists|]).
  by apply elem_of_nil in Hvalid.
Qed.

Lemma agentNode_says `{ReAct.Runtime}
    (runnable : list ReAct.BaseMessage → ReAct.World
                → option (string * list ReAct.ToolCall) * ReAct.World)
    state s u s' :
  bind (ReAct.call (runnable (ReAct.messages state)))
       (λ agentResponse,
          ret (ReAct.only_messages [ReAct.AIMessage agentResponse.1 agentResponse.2])) s
  = (Normal u, s') →
  ∃ text calls,
    u = ReAct.only_messages [ReAct.AIMessage text calls]
    ∧ ReAct.toolsCondition (ReAct.apply_update state u)
      = match calls with [] => "__end__" | _ :: _ => "tools" end.
Proof.
  intros Hrun. apply bind_normal in Hrun as ([text calls] & s1 & _ & Hret).
  apply ret_normal in Hret as ->. exists text, calls. split; [done|].
  unfold ReAct.toolsCondition. simpl. rewrite last_snoc. by destruct calls.
Qed.

(** The only routing decision without a destination: the edge condition of
    a worker after an answer without tool calls. *)
Lemma next_unknown `{ReAct.Runtime} n state s u s' name :
  ReAct.node n state s = (Normal u, s') →
  ReAct.next n (ReAct.apply_update state u) = inl name →
  name = "__end__" ∧ ∃ text, u = ReAct.only_messages [ReAct.AIMessage text []].
Proof.
  destruct n; simpl; try discriminate.
  - intros Hnode Hnext.
    apply supervisor_next_defined in Hnode as [d Hd]. simpl in Hd. congruence.
  - intros Hnode. apply agentNode_says in Hnode as (text & calls & -> & ->).
    destruct calls; [|discriminate]. intros [= <-]. by eauto.
  - intros Hnode. apply agentNode_says in Hnode as (text & calls & -> & ->).
    destruct calls; [|discriminate]. intros [= <-]. by eauto.
Qed.

(** X17. A pass of the ReAct graph stops on a routing decision without a
    destination in one way only: a worker has answered without asking for a
    tool, [toolsCondition] has returned ["__end__"], and the worker's table,
    whose keys are ["tools"] and ["end"], does not have it. The name the
    supervisor writes always has a destination. *)
Theorem react_unknown_destination_is_worker_answer `{ReAct.Runtime}
    (limit : nat) (n : ReAct.Node) (state reached : ReAct.AgentState)
    (s s' : ReAct.Store) (name : string) :
  ReAct.run limit n state s = (ReAct.UnknownDestination name, reached, s') →
  name = "__end__"
  ∧ ReAct.researchEdges !! name = None
  ∧ ReAct.redditEdges !! name = None
  ∧ ∃ text, last (ReAct.messages reached) = Some (ReAct.AIMessage text []).
Proof.
  revert n state s. induction limit as [|limit IH]; intros n state s; simpl; [done|].
  destruct (ReAct.node n state s) as [[u|] s1] eqn:Hnode; [|done].
  destruct (ReAct.next n _) as [key|[n'|]] eqn:Hnext.
  - intros [= -> <- <-].
    destruct (next_unknown _ _ _ _ _ _ Hnode Hnext) as (-> & text & ->).
    split; [done|]. do 2 (split; [by vm_compute|]).
    exists text. simpl. by rewrite last_snoc.
  - apply IH.
  - by destruct limit.
Qed.

Lemma react_unknown_destination_is_worker_answer_witness :
  "__end__" = "__end__"
  ∧ ReAct.researchEdges !! "__end__" = None
  ∧ ReAct.redditEdges !! "__end__" = None
  ∧ ∃ text,
      last [ReAct.HumanMessage "What causes climate change?";
            ReAct.AIMessage "Mostly the burning of fossil fuels." []]
      = Some (ReAct.AIMessage text []).
Proof.
  exact (@react_unknown_destination_is_worker_answer Scripted.answers_at_once
           25 ReAct.supervisor
           (Scripted.asked "What causes climate change?")
           {| ReAct.messages :=
                [ReAct.HumanMessage "What causes climate change?";
                 ReAct.AIMessage "Mostly the burning of fossil fuels." []];
              ReAct.userInput := "What causes climate change?";
              ReAct.nextAgent := "research_agent" |}
           (@ReAct.Build_Store Scripted.answers_at_once () [])
           (@ReAct.Build_Store Scripted.answers_at_once () [])
           "__end__" eq_refl).
Defined.

Lemma next_in_tool_loop n state :
  tool_loop_node n = true →
  match ReAct.next n state with
  | inl name => True
  | inr (ReAct.Goto n') => tool_loop_node n' = true
  | inr ReAct.END => False
  end.
Proof.
  destruct n; try discriminate; intros _; simpl; try done;
    unfold ReAct.toolsCondition;
    by destruct (last _) as [[| ? [|] | |]|].
Qed.

Lemma tool_loop_never_ends `{ReAct.Runtime} limit n state s :
  tool_loop_node n = true →
  (ReAct.run limit n state s).1.1 ≠ ReAct.Finished.
Proof.
  revert n state s. induction limit as [|limit IH]; intros n state s Hloop; simpl;
    [done|].
  destruct (ReAct.node n state s) as [[u|] s1]; [|done].
  assert (Hnext := next_in_tool_loop n (ReAct.apply_update state u) Hloop).
  destruct (ReAct.next n _) as [key|[n'|]]; [done | by apply IH | done].
Qed.

(** X23. A turn that the supervisor hands to the research worker or to the
    Reddit worker never ends well, whatever the worker and its tools do and
    whatever the step limit: the loop of the worker leaves by ["__end__"]
    only, which has no destination, so the pass throws, [runConversation]
    prints its error line, and the history keeps the user's line but nothing
    of what the worker said. *)
Theorem worker_turn_ends_in_error `{ReAct.Runtime}
    (limit : nat) (line : string) (currentMessages : list ReAct.BaseMessage)
    (s : ReAct.Store) (response : string) (w : ReAct.World) :
  ReAct.supervisorChain (currentMessages ++ [ReAct.HumanMessage line]) (ReAct.world s)
  = (Some response, w) →
  JS.trim response ∈ ["research_agent"; "gme_reddit_agent"] →
  (ReAct.conversationTurn limit line currentMessages s).1
  = (conversation_error_line, currentMessages ++ [ReAct.HumanMessage line]).
Proof.
  intros Hchain Hworker. unfold ReAct.conversationTurn.
  set (inputs := {| ReAct.messages := currentMessages ++ [ReAct.HumanMessage line];
                    ReAct.userInput := line; ReAct.nextAgent := EmptyString |}).
  assert (Hhalt : (ReAct.run limit ReAct.supervisor inputs s).1.1 ≠ ReAct.Finished).
  { destruct limit as [|limit]; [done|]. simpl.
    unfold ReAct.supervisorNode, ReAct.call, ReAct.lift_world, bind. simpl.
    rewrite Hchain. simpl.
    assert (ReAct.validated (JS.trim response) = JS.trim response) as ->.
    { unfold ReAct.validated. rewrite bool_decide_eq_true_2; [done|].
      unfold ReAct.validNodes.
      apply elem_of_cons in Hworker as [->|Hworker]; [set_solver|].
      apply elem_of_cons in Hworker as [->|Hworker]; [set_solver|].
      by apply elem_of_nil in Hworker. }
    apply elem_of_cons in Hworker as [->|Hworker].
    { by apply tool_loop_never_ends. }
    apply elem_of_cons in Hworker as [->|Hworker].
    { by apply tool_loop_never_ends. }
    by apply elem_of_nil in Hworker. }
  destruct (ReAct.run limit ReAct.supervisor inputs s) as [[halt result] s'].
  by destruct halt.
Qed.

Lemma worker_turn_ends_in_error_witness :
  (@ReAct.conversationTurn Scripted.answers_at_once 25 "What causes climate change?" []
     (@ReAct.Build_Store Scripted.answers_at_once () [])).1
  = (conversation_error_line, [] ++ [ReAct.HumanMessage "What causes climate change?"]).
Proof.
  refine (@worker_turn_ends_in_error Scripted.answers_at_once
            25 "What causes climate change?" []
            (@ReAct.Build_Store Scripted.answers_at_once () [])
            "research_agent" () eq_refl _).
  vm_compute. by left.
Defined.

(** X18. The feature-request node of the ReAct script always returns, with
    exactly one model message that asks for no tool, and the queue as it
    was or with one entry appended — so the pass goes back to the supervisor
    whether the structured output could be produced or not. *)
Theorem featureRequestNode_answers `{ReAct.Runtime}
    (state : ReAct.AgentState) (s : ReAct.Store) :
  ∃ text s',
    ReAct.featureRequestNode state s
    = (Normal (ReAct.only_messages [ReAct.AIMessage text []]), s')
    ∧ (ReAct.featureRequestQueue s' = ReAct.featureRequestQueue s
       ∨ ∃ featureData,
           ReAct.featureRequestQueue s' = ReAct.featureRequestQueue s ++ [featureData]
           ∧ JS.includes text (ReAct.title featureData) = true
           ∧ JS.includes text (ReAct.id featureData) = true)
    ∧ ReAct.next ReAct.feature_request_agent
        (ReAct.apply_update state (ReAct.only_messages [ReAct.AIMessage text []]))
      = inr (ReAct.Goto ReAct.supervisor).
Proof.
  unfold ReAct.featureRequestNode.
  set (relevantMessages := drop _ _).
  unfold bind at 1, try_catch, bind at 1, ReAct.call, bind at 1, ReAct.lift_world at 1.
  destruct (ReAct.featureRequestChain relevantMessages (ReAct.world s))
    as [[[[[t d] g] u]|] w]; simpl.
  - unfold bind at 1, ReAct.lift_world. simpl.
    destruct (ReAct.randomUUID w) as [featureId w'].
    eexists _, _. split; [reflexivity|]. split; [|done].
    right. eexists. split; [reflexivity|]. cbn [ReAct.title ReAct.id].
    split; repeat first [apply includes_here | apply includes_later].
  - eexists _, _. split; [reflexivity|]. split; [by left | done].
Qed.

(** X19. The history of the conversation is append-only across turns: after
    a turn, whether the pass succeeded or ended in an error, the history is
    the old one, then the user's line, then what the pass added. *)
Theorem conversation_history_grows `{ReAct.Runtime}
    (limit : nat) (line : string) (currentMessages : list ReAct.BaseMessage)
    (s : ReAct.Store) :
  (currentMessages ++ [ReAct.HumanMessage line])
  `prefix_of` (ReAct.conversationTurn limit line currentMessages s).1.2.
Proof.
  unfold ReAct.conversationTurn.
  set (inputs := {| ReAct.messages := currentMessages ++ [ReAct.HumanMessage line];
                    ReAct.userInput := line; ReAct.nextAgent := EmptyString |}).
  assert (Hrun := react_run_extends limit ReAct.supervisor inputs s).
  destruct (ReAct.run limit ReAct.supervisor inputs s) as [[halt result] s'].
  by destruct halt.
Qed.

Lemma filled_length copies :
  length (ReAct.filled copies) = (5 * copies)%nat.
Proof.
  induction copies as [|copies IH]; simpl; [done|].
  rewrite IH. lia.
Qed.

Lemma filled_lookup copies i :
  (i < 5 * copies)%nat →
  ReAct.filled copies !! i = ReAct.simulatedData !! (i mod 5)%nat.
Proof.
  revert i. induction copies as [|copies IH]; intros i Hi; [lia|].
  change (ReAct.filled (S copies)) with (ReAct.simulatedData ++ ReAct.filled copies).
  destruct (decide (i < 5)%nat) as [Hfirst|Hlater].
  - rewrite lookup_app_l by done. by rewrite Nat.mod_small.
  - rewrite lookup_app_r by (simpl; lia).
    change (length ReAct.simulatedData) with 5%nat.
    rewrite IH by lia. f_equal.
    replace i with ((i - 5) + 1 * 5)%nat at 2 by lia.
    by rewrite Nat.Div0.mod_add.
Qed.

(** X20. Asked about GME or GameStop, in any mix of cases, with a limit that
    is not negative and not above the greatest length of an array,
    [2^32 - 1], the simulated Reddit tool returns exactly [limit] entries:
    the five simulated posts, repeated in their order for as long as
    needed. *)
Theorem simulated_fetch_cycles (JSON_stringify : list ReAct.SimulatedPost → string)
    (subreddit topic : string) (limit : Z) :
  JS.toLowerCase topic ∈ ["gme"; "gamestop"] →
  0 ≤ limit ≤ ReAct.max_array_length →
  ∃ data,
    ReAct.simulate_reddit_gme_fetcher JSON_stringify subreddit topic limit
    = Some (JSON_stringify data)
    ∧ length data = Z.to_nat limit
    ∧ ∀ i, (i < Z.to_nat limit)%nat →
           data !! i = ReAct.simulatedData !! (i mod 5)%nat.
Proof.
  intros Htopic Hlimit.
  unfold ReAct.simulate_reddit_gme_fetcher, ReAct.focused_on_GME.
  rewrite bool_decide_eq_true_2 by done.
  assert (String.eqb topic EmptyString = false) as ->.
  { destruct topic; [|done]. simpl in Htopic.
    do 2 (apply elem_of_cons in Htopic as [?|Htopic]; [done|]).
    by apply elem_of_nil in Htopic. }
  simpl. unfold ReAct.repeatedData, ReAct.ceil_div.
  change (Z.of_nat (length ReAct.simulatedData)) with 5.
  assert (Hdiv := Z.div_mod (- limit) 5 ltac:(lia)).
  assert (Hmod := Z.mod_pos_bound (- limit) 5 ltac:(lia)).
  set (copies := - (- limit / 5)) in *.
  destruct (Z.ltb_spec copies 0) as [Hneg|_]; [lia|].
  destruct (Z.ltb_spec ReAct.max_array_length copies) as [Hbig|_]; [lia|].
  simpl. eexists. split; [reflexivity|].
  unfold JS.slice0. destruct (Z.ltb_spec limit 0) as [Hneg|_]; [lia|].
  unfold ReAct.as_array. rewrite filled_length.
  unfold ReAct.max_array_length in *. split.
  - rewrite !length_take, filled_length. lia.
  - intros i Hi. rewrite !lookup_take_lt by lia. apply filled_lookup. lia.
Qed.

Lemma simulated_fetch_cycles_witness :
  ∃ data,
    ReAct.simulate_reddit_gme_fetcher (λ posts, pretty (length posts))
      "wallstreetbets" "GameStop" 7
    = Some ((λ posts : list ReAct.SimulatedPost, pretty (length posts)) data)
    ∧ length data = Z.to_nat 7
    ∧ ∀ i, (i < Z.to_nat 7)%nat →
           data !! i = ReAct.simulatedData !! (i mod 5)%nat.
Proof.
  apply (simulated_fetch_cycles (λ posts, pretty (length posts))
           "wallstreetbets" "GameStop" 7).
  - vm_compute. by right; left.
  - unfold ReAct.max_array_length. lia.
Defined.

(** ** Who said what *)

Lemma ret_signs `{Externals} who state text a :
  signs who state
    (mret {| messages := messages state ++ [assistant_says who text]; agentState := a |}).
Proof. intros s. by eexists _, _, _. Qed.

Lemma try_catch_signs `{Externals} who state (body handler : M AgentResponse) :
  (∀ s out s', body s = (Normal out, s') →
     ∃ text, messages out = messages state ++ [assistant_says who text]) →
  signs who state handler →
  signs who state (try_catch body handler).
Proof.
  intros Hbody Hhandler s. unfold try_catch.
  destruct (body s) as [[out|] s'] eqn:Hrun.
  - destruct (Hbody _ _ _ Hrun) as [text Hmsg]. by eexists _, _, _.
  - apply Hhandler.
Qed.

Lemma node_signs `{Externals} n state : signs (Graph.name n) state (Graph.node n state).
Proof.
  destruct n; simpl.
  - unfold Agents.personalAssistantAgent.
    destruct (JS.last_of _) as [latestMessage|]; [|apply ret_signs].
    apply try_catch_signs; [|apply ret_signs].
    intros s out s' Hrun. bind_inv Hrun. apply ret_normal in Hrun as ->. by eexists.
  - unfold Agents.featureRequestAgent.
    apply try_catch_signs; [|apply ret_signs].
    intros s out s' Hrun. bind_inv Hrun.
    destruct (try_catch_signs "FeatureRequestAgent" state
                (Agents.featureRequest_parsed state a)
                (mret {| messages := messages state ++ [Agents.feature_clarification];
                         agentState := with_taskCompleted false (agentState state) |}))
      with (s := s0) as (out' & s'' & text & Hrun' & Hmsg).
    + clear. intros s out s' Hrun. unfold Agents.featureRequest_parsed in Hrun.
      bind_inv Hrun. apply ret_normal in Hrun as ->. by eexists.
    + apply ret_signs.
    + exists text. unfold mret, M_ret in Hrun'. congruence.
  - unfold Agents.deepResearchAgent.
    apply try_catch_signs; [|apply ret_signs].
    intros s out s' Hrun. unfold Agents.deepResearch_attempt in Hrun.
    bind_inv Hrun. apply ret_normal in Hrun as ->. by eexists.
  - unfold Agents.gmeRedditSummaryAgent.
    apply try_catch_signs; [|apply ret_signs].
    intros s out s' Hrun. unfold Agents.gmeRedditSummary_attempt in Hrun.
    bind_inv Hrun. apply ret_normal in Hrun as ->. by eexists.
Qed.

(** X21. Every node signs what it says: a node run appends one assistant
    message carrying the node's own name, so [getAgentMessages] for that name
    gains exactly this message and for every other name is unchanged. *)
Theorem getAgentMessages_after_node `{Externals}
    (n : Graph.Node) (state : GraphState) (s : Store) :
  ∃ out s' text,
    Graph.node n state s = (Normal out, s')
    ∧ ∀ who,
        getAgentMessages (Graph.merge state out) who
        = getAgentMessages state who
          ++ (if decide (who = Graph.name n)
              then [assistant_says (Graph.name n) text] else []).
Proof.
  destruct (node_signs n state s) as (out & s' & text & Hrun & Hout).
  exists out, s', text. split; [done|]. intros who.
  unfold getAgentMessages. simpl. rewrite Hout, messages_reducer_extends, filter_app.
  f_equal. rewrite filter_cons, filter_nil. simpl.
  destruct (decide (who = Graph.name n)) as [->|Hother].
  - by rewrite decide_True.
  - rewrite decide_False; [done|]. intros [_ [= ?]]. done.
Qed.

(** ** A completed research turn *)

(** X22. When the deep-research worker reports its task completed, the agent
    state holds a research result whose sources are what the research lookup
    returns for the stored question, two or three snippets, the reply states
    their number, and the conversation is handed back to the personal
    assistant. *)
Theorem research_completed `{Externals}
    (state out : GraphState) (s s' : Store) :
  Agents.deepResearchAgent state s = (Normal out, s') →
  taskCompleted (agentState out) = true →
  ∃ result,
    researchResults (agentState out) = Some result
    ∧ sources result = ResearchTools.performResearch (question result)
    ∧ (length (sources result) = 2%nat ∨ length (sources result) = 3%nat)
    ∧ currentAgent (agentState out) = "PersonalAssistant"
    ∧ messages out
      = messages state
        ++ [assistant_says "DeepResearchAgent"
              (Agents.research_reply (question result) (answer result) (sources result))].
Proof.
  unfold Agents.deepResearchAgent, try_catch.
  destruct (Agents.deepResearch_attempt state s) as [[o|] s1] eqn:Hrun.
  - intros [= <- <-] _. unfold Agents.deepResearch_attempt in Hrun.
    bind_inv Hrun. apply ret_normal in Hrun as ->. simpl.
    eexists. split; [reflexivity|]. simpl. split; [done|].
    split; [apply performResearch_length | done].
  - intros [= <- <-]. discriminate.
Qed.

Lemma research_completed_witness :
  ∃ result,
    researchResults
      (agentState
         {| messages :=
              messages (Scripted.handed_to "DeepResearchAgent" "What causes climate change?")
              ++ [assistant_says "DeepResearchAgent"
                    (Agents.research_reply "What causes climate change?"
                       "Mostly the burning of fossil fuels."
                       (ResearchTools.performResearch "What causes climate change?"))];
            agentState :=
              with_taskCompleted true
                (with_researchResults
                   {| question := "What causes climate change?";
                      answer := "Mostly the burning of fossil fuels.";
                      sources := ResearchTools.performResearch "What causes climate change?" |}
                   (agentState createInitialState)) |})
    = Some result
    ∧ sources result = ResearchTools.performResearch (question result)
    ∧ (length (sources result) = 2%nat ∨ length (sources result) = 3%nat)
    ∧ "PersonalAssistant" = "PersonalAssistant"
    ∧ messages (Scripted.handed_to "DeepResearchAgent" "What causes climate change?")
      ++ [assistant_says "DeepResearchAgent"
            (Agents.research_reply "What causes climate change?"
               "Mostly the burning of fossil fuels."
               (ResearchTools.performResearch "What causes climate change?"))]
      = messages (Scripted.handed_to "DeepResearchAgent" "What causes climate change?")
        ++ [assistant_says "DeepResearchAgent"
              (Agents.research_reply (question result) (answer result) (sources result))].
Proof.
  exact (research_completed
           (Scripted.handed_to "DeepResearchAgent" "What causes climate change?")
           {| messages :=
                messages (Scripted.handed_to "DeepResearchAgent" "What causes climate change?")
                ++ [assistant_says "DeepResearchAgent"
                      (Agents.research_reply "What causes climate change?"
                         "Mostly the burning of fossil fuels."
                         (ResearchTools.performResearch "What causes climate change?"))];
              agentState :=
                with_taskCompleted true
                  (with_researchResults
                     {| question := "What causes climate change?";
                        answer := "Mostly the burning of fossil fuels.";
                        sources := ResearchTools.performResearch "What causes climate change?" |}
                     (agentState createInitialState)) |}
           (Scripted.store [Some " What causes climate change? ";
                            Some "Mostly the burning of fossil fuels."])
           (Scripted.store [])
           eq_refl eq_refl).
Defined.
